(** * Met Office (DataHub) integration: forecast client and weather entity

    A shallow embedding of

      - [custom_components/metoffice_datahub/const.py]
      - [custom_components/metoffice_datahub/metoffice_datahub_api.py]
      - [custom_components/metoffice_datahub/weather.py]

    Python values read from the provider are JSON trees; statements that can
    raise live in a state-and-exception monad whose state records what the
    code does to the outside world (requests, sleeps, log records) and to
    the entity ([self]). *)

From Stdlib Require Import Ascii QArith Qcanon.
From stdpp Require Import base tactics option list numbers strings pretty gmap.

Set Warnings "-register-all,-clear-no-such-hyp".
Open Scope Z_scope.

(** ** Exceptions

    Only the classes the code names or that the built-ins it calls raise.
    [ClientResponseError] is a subclass of [ClientError], and
    [ClientConnectionError] stands for the [ClientError]s that are no
    response errors: a connection that fails or is reset, and the
    time-outs aiohttp reports as one. [TimeoutError] is asyncio's, which is
    raised when the total time of a request runs out and is no
    [ClientError]. Every constructor is a subclass of [Exception]. *)

Inductive exn : Type :=
| ValueError
| KeyError
| IndexError
| TypeError
| ZeroDivisionError
| OverflowError
| TimeoutError
| ClientResponseError (status : Z)
| ClientConnectionError.

Definition is_ClientResponseError (e : exn) : option Z :=
  match e with ClientResponseError status => Some status | _ => None end.

Definition is_ClientError (e : exn) : bool :=
  match e with
  | ClientResponseError _ | ClientConnectionError => true
  | _ => false
  end.

Inductive result (A : Type) : Type :=
| Ok (a : A)
| Raise (e : exn).
Arguments Ok {A} a.
Arguments Raise {A} e.

#[global] Instance result_ret : MRet result := λ A a, Ok a.
#[global] Instance result_bind : MBind result :=
  λ A B k r, match r with Ok a => k a | Raise e => Raise e end.
#[global] Instance result_fmap : FMap result :=
  λ A B f r, match r with Ok a => Ok (f a) | Raise e => Raise e end.

(** ** The monad of statements: state [S], result or exception *)

Definition M (S A : Type) : Type := S → result A * S.

#[global] Instance M_ret {S} : MRet (M S) := λ A a s, (Ok a, s).
#[global] Instance M_bind {S} : MBind (M S) :=
  λ A B k m s, match m s with
               | (Ok a, s') => k a s'
               | (Raise e, s') => (Raise e, s')
               end.

Definition raise {S A} (e : exn) : M S A := λ s, (Raise e, s).
Definition try_except {S A} (m : M S A) (handler : exn → M S A) : M S A :=
  λ s, match m s with
       | (Ok a, s') => (Ok a, s')
       | (Raise e, s') => handler e s'
       end.
Definition modify {S} (f : S → S) : M S unit := λ s, (Ok tt, f s).
Definition lift_result {S A} (r : result A) : M S A := λ s, (r, s).

(** ** JSON values, as [json.loads] builds them

    A number is a Python [int] or a finite [float], given by its exact
    value, a rational in canonical form ([Qc]); the two are not told apart,
    and every operation below gives the same answer for an [int] and a
    [float] of one value. The floats that are no finite numbers come
    apart: [json.loads] builds them from the literals [Infinity],
    [-Infinity] and [NaN] and from numbers beyond the range of a float
    ([1e999]), and float arithmetic yields them. An object is the list of
    its items in document order. *)

Inductive nonfinite : Type := PosInf | NegInf | NaN.

Inductive json : Type :=
| JNull
| JBool (b : bool)
| JNum (q : Qc)
| JNonFinite (f : nonfinite)
| JStr (s : string)
| JArr (items : list json)
| JObj (items : list (string * json)).

Definition dict : Type := list (string * json).

Fixpoint dict_lookup (k : string) (d : dict) : option json :=
  match d with
  | [] => None
  | (k', v) :: d' => if String.eqb k k' then Some v else dict_lookup k d'
  end.

Definition Zc (z : Z) : Qc := Q2Qc (inject_Z z).

(** [bool(x)] *)
Definition truthy (x : json) : bool :=
  match x with
  | JNull => false
  | JBool b => b
  | JNum q => negb (Qnum (this q) =? 0)
  | JNonFinite _ => true
  | JStr s => negb (String.eqb s "")
  | JArr items => match items with [] => false | _ => true end
  | JObj items => match items with [] => false | _ => true end
  end.

Definition is_substring (k s : string) : bool :=
  match String.index 0 k s with Some _ => true | None => false end.

(** [k in x] for a string [k] *)
Definition py_contains (k : string) (x : json) : result bool :=
  match x with
  | JObj items => Ok (bool_decide (is_Some (dict_lookup k items)))
  | JArr items =>
      Ok (existsb (λ y, match y with JStr s => String.eqb s k | _ => false end) items)
  | JStr s => Ok (is_substring k s)
  | JNull | JBool _ | JNum _ | JNonFinite _ => Raise TypeError
  end.

(** [x[k]] for a string [k] *)
Definition getitem (x : json) (k : string) : result json :=
  match x with
  | JObj items =>
      match dict_lookup k items with Some v => Ok v | None => Raise KeyError end
  | _ => Raise TypeError
  end.

(** [x[0]] *)
Definition getitem0 (x : json) : result json :=
  match x with
  | JArr items => match items with y :: _ => Ok y | [] => Raise IndexError end
  | JStr s =>
      match s with
      | String c _ => Ok (JStr (String c EmptyString))
      | EmptyString => Raise IndexError
      end
  | JObj _ => Raise KeyError
  | JNull | JBool _ | JNum _ | JNonFinite _ => Raise TypeError
  end.

(** ** const.py *)

Definition DOMAIN : string := "metoffice_datahub".
Definition BASE_URL : string :=
  "https://data.hub.api.metoffice.gov.uk/sitespecific/v0/point".
Definition ENDPOINTS : gmap string string :=
  list_to_map [("hourly", "/hourly"); ("three_hourly", "/three-hourly"); ("daily", "/daily")].

(** ** What the code does to the outside world *)

Inductive level : Type := DEBUG | WARNING | ERROR.

Inductive event : Type :=
| Log (lvl : level) (msg : string)
| Request (url : string)
| Sleep (seconds : Z).

(** [sent] counts the requests issued so far; [trace] lists every event in
    the order it happened. *)
Record world : Type := World { sent : nat; trace : list event }.

Definition world0 : world := World 0 [].

Definition emit (ev : event) : M world unit :=
  modify (λ w, World (sent w) (trace w ++ [ev])).

(** Control leaving one pass through a loop body: fall to the next
    iteration ([continue], or the end of the body) or [return]. *)
Inductive flow (A : Type) : Type :=
| Continue
| Return (a : A).
Arguments Continue {A}.
Arguments Return {A} a.

(** [for x in xs: body]; [None] when the loop runs to its end. *)
Fixpoint for_in {S I A} (xs : list I) (body : I → M S (flow A)) : M S (option A) :=
  match xs with
  | [] => mret None
  | x :: xs' =>
      r ← body x;
      match r with
      | Return a => mret (Some a)
      | Continue => for_in xs' body
      end
  end.

Definition range (n : nat) : list Z := seqZ 0 (Z.of_nat n).

(** ** metoffice_datahub_api.py *)

Module MetOfficeDataHubAPI.

(** The provider. [net n] is what the body of
    [async with self._session.get(...) as response] does on the request
    numbered [n] (from 0): [response.raise_for_status()] raises
    [ClientResponseError status] on an error status, the transport raises
    [ClientConnectionError] (or another exception), and otherwise
    [response.json()] gives the parsed body, which is whatever JSON value
    the provider sent: the annotation [dict[str, Any]] is not checked. *)
Definition network : Type := nat → result json.

Definition session_get (net : network) (endpoint : string) : M world json :=
  λ w, (net (sent w), World (S (sent w)) (trace w ++ [Request endpoint])).

Definition sleep (seconds : Z) : M world unit := emit (Sleep seconds).

(** One pass through the body of [for attempt in range(3)]. *)
Definition attempt_body (net : network) (endpoint : string) (attempt : Z)
  : M world (flow json) :=
  try_except
    (emit (Log DEBUG "Making API request for Met Office (DataHub), attempt %d endpoint: %s params: %s");;
     body ← session_get net endpoint;
     mret (Return body))
    (λ err,
      match is_ClientResponseError err with
      | Some status =>
          if status =? 401 then
            emit (Log ERROR "Invalid API key for Met Office (DataHub)");;
            raise err
          else if (status =? 429) && (attempt <? 2) then
            emit (Log WARNING "Rate limited by Met Office (DataHub), retrying");;
            sleep (2 ^ attempt);;
            mret Continue
          else
            emit (Log ERROR "Error fetching Met Office (DataHub) data: %s");;
            raise err
      | None =>
          if is_ClientError err then
            if attempt <? 2 then
              emit (Log WARNING "Error communicating with Met Office (DataHub), retrying");;
              sleep (2 ^ attempt);;
              mret Continue
            else
              emit (Log ERROR "Error communicating with Met Office (DataHub): %s");;
              raise err
          else raise err
      end).

Definition retry_loop (net : network) (endpoint : string) : M world (option json) :=
  for_in (range 3) (attempt_body net endpoint).

Definition async_get_forecast (net : network) (forecast_type : string) : M world json :=
  match ENDPOINTS !! forecast_type with
  | None => raise ValueError
  | Some path =>
      let endpoint := BASE_URL +:+ path in
      r ← retry_loop net endpoint;
      match r with
      | Some body => mret body
      | None => mret JNull
      end
  end.

End MetOfficeDataHubAPI.

(** ** weather.py *)

(** Met Office significant-weather codes to Home Assistant conditions. *)
Definition CONDITION_MAP : gmap Z string :=
  list_to_map
    [ (0, "clear-night"); (1, "sunny"); (2, "partlycloudy"); (3, "partlycloudy");
      (5, "fog"); (6, "fog"); (7, "cloudy"); (8, "cloudy");
      (9, "lightning-rainy"); (10, "lightning-rainy");
      (11, "rainy"); (12, "rainy"); (13, "rainy"); (14, "rainy"); (15, "rainy");
      (16, "snowy-rainy"); (17, "snowy-rainy"); (18, "snowy-rainy");
      (19, "snowy"); (20, "snowy"); (21, "snowy"); (22, "snowy"); (23, "snowy");
      (24, "snowy"); (25, "snowy"); (26, "snowy"); (27, "snowy");
      (28, "lightning"); (29, "lightning"); (30, "lightning") ].

(** The integer a hashable JSON value hashes and compares equal to, if any:
    [True == 1], [False == 0] and [1.0 == 1] in Python; [inf] and [nan]
    equal no integer. *)
Definition as_int_key (x : json) : option Z :=
  match x with
  | JBool b => Some (if b then 1 else 0)
  | JNum q => if (Zpos (Qden (this q)) =? 1) then Some (Qnum (this q)) else None
  | _ => None
  end.

Definition hashable (x : json) : bool :=
  match x with
  | JArr _ | JObj _ => false
  | _ => true
  end.

(** [CONDITION_MAP.get(code, "unknown")] *)
Definition condition_of (code : json) : result string :=
  if hashable code then
    Ok (default "unknown" (k ← as_int_key code; CONDITION_MAP !! k))
  else Raise TypeError.

(** The number a JSON value stands for in arithmetic ([bool] is a subclass
    of [int]). *)
Inductive number : Type :=
| Finite (q : Qc)
| NonFinite (f : nonfinite).

Definition number_json (x : number) : json :=
  match x with
  | Finite q => JNum q
  | NonFinite f => JNonFinite f
  end.

Definition as_number (x : json) : result number :=
  match x with
  | JNum q => Ok (Finite q)
  | JBool b => Ok (Finite (if b then Zc 1 else Zc 0))
  | JNonFinite f => Ok (NonFinite f)
  | _ => Raise TypeError
  end.

(** *** Binary floating point

    [binary64 q] is the float nearest to the rational [q], ties going to
    the even significand (IEEE 754 double precision, the [float] of
    CPython): 53 bits of significand, the least positive float [2 ** -1074];
    [None] when the nearest float would be [2 ** 1024] or beyond. *)

(** [e] with [2 ** e <= n / d < 2 ** (e + 1)] *)
Definition floor_log2 (n d : positive) : Z :=
  let e := Z.log2 (Zpos n) - Z.log2 (Zpos d) in
  if (if 0 <=? e then Zpos d * 2 ^ e <=? Zpos n else Zpos d <=? Zpos n * 2 ^ (- e))
  then e else e - 1.

(** The integer nearest to [n / d], ties to even, for [0 <= n] and [0 < d] *)
Definition round_half_even (n d : Z) : Z :=
  let q := n / d in
  let r := n mod d in
  match 2 * r ?= d with
  | Lt => q
  | Gt => q + 1
  | Eq => if Z.even q then q else q + 1
  end.

Definition binary64_pos (n d : positive) : option Q :=
  let e := floor_log2 n d in
  let u := Z.max (e - 52) (-1074) in
  let m := if 0 <=? u then round_half_even (Zpos n) (Zpos d * 2 ^ u)
           else round_half_even (Zpos n * 2 ^ (- u)) (Zpos d) in
  if 0 <=? u then
    if 2 ^ 1024 <=? m * 2 ^ u then None else Some (inject_Z (m * 2 ^ u))
  else Some (Qmake m (Z.to_pos (2 ^ (- u)))).

Definition binary64 (q : Qc) : option Qc :=
  match Qnum (this q) with
  | Z0 => Some q
  | Zpos n => Q2Qc <$> binary64_pos n (Qden (this q))
  | Zneg n => (λ r, Q2Qc (- r)) <$> binary64_pos n (Qden (this q))
  end.

(** [x / n] for an integer [n] that a float holds exactly (100 and the
    length of a list are such): the quotient is rounded to a float, and an
    integer too large for that raises [OverflowError]; a float divided by
    zero raises like an integer. *)
Definition truediv (x : json) (n : Z) : result json :=
  q ← as_number x;
  if n =? 0 then Raise ZeroDivisionError else
  match q with
  | Finite q =>
      match binary64 (q / Zc n)%Qc with
      | Some r => Ok (JNum r)
      | None => Raise OverflowError
      end
  | NonFinite NaN => Ok (JNonFinite NaN)
  | NonFinite PosInf => Ok (JNonFinite (if 0 <? n then PosInf else NegInf))
  | NonFinite NegInf => Ok (JNonFinite (if 0 <? n then NegInf else PosInf))
  end.

(** [a < b] on numbers: a comparison with [nan] is false. *)
Definition number_lt (x y : number) : bool :=
  match x, y with
  | Finite a, Finite b => match (a ?= b)%Qc with Lt => true | _ => false end
  | NonFinite NaN, _ | _, NonFinite NaN => false
  | _, NonFinite NegInf => false
  | NonFinite NegInf, _ => true
  | NonFinite PosInf, _ => false
  | Finite _, NonFinite PosInf => true
  end.

(** [a == b], as [list.count], [set] and the comparison of sequences test
    it: an object equals itself, so the [nan] of [json.loads], one object
    for every [NaN] literal, equals itself here. *)
Fixpoint py_eq (a b : json) : bool :=
  match a, b with
  | JNull, JNull => true
  | JStr s, JStr t => String.eqb s t
  | JBool x, JBool y => Bool.eqb x y
  | JBool x, JNum q | JNum q, JBool x => bool_decide (q = if x then Zc 1 else Zc 0)
  | JNum p, JNum q => bool_decide (p = q)
  | JNonFinite f, JNonFinite g =>
      match f, g with
      | PosInf, PosInf | NegInf, NegInf | NaN, NaN => true
      | _, _ => false
      end
  | JArr xs, JArr ys =>
      (fix all2 (xs ys : list json) : bool :=
         match xs, ys with
         | [], [] => true
         | x :: xs', y :: ys' => py_eq x y && all2 xs' ys'
         | _, _ => false
         end) xs ys
  | JObj d, JObj d' =>
      (length d =? length d')%nat
      && (fix all_in (d : list (string * json)) : bool :=
            match d with
            | [] => true
            | (k, v) :: rest =>
                match dict_lookup k d' with
                | Some v' => py_eq v v' && all_in rest
                | None => false
                end
            end) d
  | _, _ => false
  end.

(** [a < b]: numbers by value, strings by their characters, arrays by
    the first pair of items that are not equal, or by length when there is
    none; anything else raises [TypeError]. *)
Fixpoint py_lt (a b : json) : result bool :=
  match a, b with
  | JStr s, JStr t => Ok (String.ltb s t)
  | JArr xs, JArr ys =>
      (fix lt_items (xs ys : list json) : result bool :=
         match xs, ys with
         | [], [] => Ok false
         | [], _ :: _ => Ok true
         | _ :: _, [] => Ok false
         | x :: xs', y :: ys' => if py_eq x y then lt_items xs' ys' else py_lt x y
         end) xs ys
  | _, _ =>
      x ← as_number a;
      y ← as_number b;
      Ok (number_lt x y)
  end.

(** [max(xs)] and [min(xs)]: the running item is replaced only by a
    strictly greater (smaller) one. *)
Fixpoint max_from (cur : json) (xs : list json) : result json :=
  match xs with
  | [] => Ok cur
  | x :: xs' => gt ← py_lt cur x; max_from (if (gt : bool) then x else cur) xs'
  end.
Definition py_max (xs : list json) : result json :=
  match xs with
  | [] => Raise ValueError
  | x :: xs' => max_from x xs'
  end.

Fixpoint min_from (cur : json) (xs : list json) : result json :=
  match xs with
  | [] => Ok cur
  | x :: xs' => lt ← py_lt x cur; min_from (if (lt : bool) then x else cur) xs'
  end.
Definition py_min (xs : list json) : result json :=
  match xs with
  | [] => Raise ValueError
  | x :: xs' => min_from x xs'
  end.

(** *** Summation

    [sum] starts from the integer 0 and adds the items from left to
    right. Integers add exactly. With floats the running total is a float
    and every addition rounds; CPython from 3.12 on also carries a
    compensation term that it adds at the end; a float total can leave the
    finite range, and an integer too large for a float that meets a float
    total raises [OverflowError]. The running state [Acc] and its three
    operations are the runtime's. *)
Record summation : Type := Summation {
  Acc : Type;
  sum_start : Acc;
  sum_step : Acc → number → result Acc;
  sum_finish : Acc → number;
}.

(** [sum(xs)] *)
Fixpoint sum_from (adder : summation) (acc : Acc adder) (xs : list json)
  : result number :=
  match xs with
  | [] => Ok (sum_finish adder acc)
  | x :: xs' => q ← as_number x; acc' ← sum_step adder acc q; sum_from adder acc' xs'
  end.
Definition py_sum (adder : summation) (xs : list json) : result number :=
  sum_from adder (sum_start adder) xs.

(** [sum(entry[k] for entry in entries)]: the generator looks an item up
    when [sum] asks for it, just before it is added. *)
Fixpoint sum_key_from (adder : summation) (acc : Acc adder) (entries : list json)
    (k : string) : result number :=
  match entries with
  | [] => Ok (sum_finish adder acc)
  | entry :: entries' =>
      x ← getitem entry k;
      q ← as_number x;
      acc' ← sum_step adder acc q;
      sum_key_from adder acc' entries' k
  end.
Definition py_sum_key (adder : summation) (entries : list json) (k : string)
  : result number :=
  sum_key_from adder (sum_start adder) entries k.

(** [xs.count(x)] *)
Definition py_count (xs : list json) (x : json) : nat :=
  length (filter (λ y, py_eq y x = true) xs).

(** [max(xs, key=key)] with keys that are counts *)
Fixpoint max_key_from (key : json → nat) (cur : json) (xs : list json) : json :=
  match xs with
  | [] => cur
  | x :: xs' => max_key_from key (if bool_decide (key cur < key x)%nat then x else cur) xs'
  end.
Definition py_max_key (key : json → nat) (xs : list json) : result json :=
  match xs with
  | [] => Raise ValueError
  | x :: xs' => Ok (max_key_from key x xs')
  end.

(** [for x in v]: the items of an array, the keys of an object, the
    characters of a string. *)
Definition py_iter (v : json) : result (list json) :=
  match v with
  | JArr items => Ok items
  | JObj items => Ok (JStr <$> items.*1)
  | JStr s => Ok ((λ c, JStr (String c EmptyString)) <$> String.list_ascii_of_string s)
  | JNull | JBool _ | JNum _ | JNonFinite _ => Raise TypeError
  end.

(** The entity. An attribute that holds [None] is [JNull]; the
    [_attr_*] values the code never assigns before the first update are
    the [None] class defaults of [WeatherEntity]. *)
Record Weather : Type := mkWeather {
  _data : json;
  _attr_available : bool;
  _attr_native_temperature : json;
  _attr_native_apparent_temperature : json;
  _attr_native_dew_point : json;
  _attr_humidity : json;
  _attr_native_pressure : json;
  _attr_native_visibility : json;
  _attr_native_wind_speed : json;
  _attr_wind_bearing : json;
  _attr_uv_index : json;
  _attr_condition : option string;
}.

(** [__init__] *)
Definition init : Weather :=
  mkWeather JNull false JNull JNull JNull JNull JNull JNull JNull JNull JNull None.

Definition set_data (v : json) (s : Weather) : Weather :=
  mkWeather v (_attr_available s) (_attr_native_temperature s)
    (_attr_native_apparent_temperature s) (_attr_native_dew_point s) (_attr_humidity s)
    (_attr_native_pressure s) (_attr_native_visibility s) (_attr_native_wind_speed s)
    (_attr_wind_bearing s) (_attr_uv_index s) (_attr_condition s).
Definition set_available (v : bool) (s : Weather) : Weather :=
  mkWeather (_data s) v (_attr_native_temperature s)
    (_attr_native_apparent_temperature s) (_attr_native_dew_point s) (_attr_humidity s)
    (_attr_native_pressure s) (_attr_native_visibility s) (_attr_native_wind_speed s)
    (_attr_wind_bearing s) (_attr_uv_index s) (_attr_condition s).
Definition set_native_temperature (v : json) (s : Weather) : Weather :=
  mkWeather (_data s) (_attr_available s) v
    (_attr_native_apparent_temperature s) (_attr_native_dew_point s) (_attr_humidity s)
    (_attr_native_pressure s) (_attr_native_visibility s) (_attr_native_wind_speed s)
    (_attr_wind_bearing s) (_attr_uv_index s) (_attr_condition s).
Definition set_native_apparent_temperature (v : json) (s : Weather) : Weather :=
  mkWeather (_data s) (_attr_available s) (_attr_native_temperature s)
    v (_attr_native_dew_point s) (_attr_humidity s)
    (_attr_native_pressure s) (_attr_native_visibility s) (_attr_native_wind_speed s)
    (_attr_wind_bearing s) (_attr_uv_index s) (_attr_condition s).
Definition set_native_dew_point (v : json) (s : Weather) : Weather :=
  mkWeather (_data s) (_attr_available s) (_attr_native_temperature s)
    (_attr_native_apparent_temperature s) v (_attr_humidity s)
    (_attr_native_pressure s) (_attr_native_visibility s) (_attr_native_wind_speed s)
    (_attr_wind_bearing s) (_attr_uv_index s) (_attr_condition s).
Definition set_humidity (v : json) (s : Weather) : Weather :=
  mkWeather (_data s) (_attr_available s) (_attr_native_temperature s)
    (_attr_native_apparent_temperature s) (_attr_native_dew_point s) v
    (_attr_native_pressure s) (_attr_native_visibility s) (_attr_native_wind_speed s)
    (_attr_wind_bearing s) (_attr_uv_index s) (_attr_condition s).
Definition set_native_pressure (v : json) (s : Weather) : Weather :=
  mkWeather (_data s) (_attr_available s) (_attr_native_temperature s)
    (_attr_native_apparent_temperature s) (_attr_native_dew_point s) (_attr_humidity s)
    v (_attr_native_visibility s) (_attr_native_wind_speed s)
    (_attr_wind_bearing s) (_attr_uv_index s) (_attr_condition s).
Definition set_native_visibility (v : json) (s : Weather) : Weather :=
  mkWeather (_data s) (_attr_available s) (_attr_native_temperature s)
    (_attr_native_apparent_temperature s) (_attr_native_dew_point s) (_attr_humidity s)
    (_attr_native_pressure s) v (_attr_native_wind_speed s)
    (_attr_wind_bearing s) (_attr_uv_index s) (_attr_condition s).
Definition set_native_wind_speed (v : json) (s : Weather) : Weather :=
  mkWeather (_data s) (_attr_available s) (_attr_native_temperature s)
    (_attr_native_apparent_temperature s) (_attr_native_dew_point s) (_attr_humidity s)
    (_attr_native_pressure s) (_attr_native_visibility s) v
    (_attr_wind_bearing s) (_attr_uv_index s) (_attr_condition s).
Definition set_wind_bearing (v : json) (s : Weather) : Weather :=
  mkWeather (_data s) (_attr_available s) (_attr_native_temperature s)
    (_attr_native_apparent_temperature s) (_attr_native_dew_point s) (_attr_humidity s)
    (_attr_native_pressure s) (_attr_native_visibility s) (_attr_native_wind_speed s)
    v (_attr_uv_index s) (_attr_condition s).
Definition set_uv_index (v : json) (s : Weather) : Weather :=
  mkWeather (_data s) (_attr_available s) (_attr_native_temperature s)
    (_attr_native_apparent_temperature s) (_attr_native_dew_point s) (_attr_humidity s)
    (_attr_native_pressure s) (_attr_native_visibility s) (_attr_native_wind_speed s)
    (_attr_wind_bearing s) v (_attr_condition s).
Definition set_condition (v : option string) (s : Weather) : Weather :=
  mkWeather (_data s) (_attr_available s) (_attr_native_temperature s)
    (_attr_native_apparent_temperature s) (_attr_native_dew_point s) (_attr_humidity s)
    (_attr_native_pressure s) (_attr_native_visibility s) (_attr_native_wind_speed s)
    (_attr_wind_bearing s) (_attr_uv_index s) v.

(** Statements of the entity's methods run on the entity and the world. *)
Definition setattr (f : Weather → Weather) : M (Weather * world) unit :=
  modify (λ '(s, w), (f s, w)).
Definition getattr {A} (f : Weather → A) : M (Weather * world) A :=
  λ '(s, w), (Ok (f s), (s, w)).
Definition in_world {A} (m : M world A) : M (Weather * world) A :=
  λ '(s, w), let '(r, w') := m w in (r, (s, w')).
Definition log_error (msg : string) : M (Weather * world) unit :=
  in_world (emit (Log ERROR msg)).

(** [not x or k not in x] *)
Definition falsy_or_lacks (x : json) (k : string) : result bool :=
  if truthy x then negb <$> py_contains k x else Ok true.

Module MetOfficeDataHubWeather.

(** Lines 148-160: the assignments once [current] passed the checks. *)
Definition update_current_conditions (current : json) : M (Weather * world) unit :=
  v ← lift_result (getitem current "screenTemperature");
  setattr (set_native_temperature v);;
  v ← lift_result (getitem current "feelsLikeTemperature");
  setattr (set_native_apparent_temperature v);;
  v ← lift_result (getitem current "screenDewPointTemperature");
  setattr (set_native_dew_point v);;
  v ← lift_result (getitem current "screenRelativeHumidity");
  setattr (set_humidity v);;
  v ← lift_result (getitem current "mslp" ≫= λ p, truediv p 100);
  setattr (set_native_pressure v);;
  v ← lift_result (getitem current "visibility");
  setattr (set_native_visibility v);;
  v ← lift_result (getitem current "windSpeed10m");
  setattr (set_native_wind_speed v);;
  v ← lift_result (getitem current "windDirectionFrom10m");
  setattr (set_wind_bearing v);;
  v ← lift_result (getitem current "uvIndex");
  setattr (set_uv_index v);;
  c ← lift_result (getitem current "significantWeatherCode" ≫= condition_of);
  setattr (set_condition (Some c)).

Definition async_update (net : MetOfficeDataHubAPI.network) : M (Weather * world) unit :=
  fetched ← try_except
    (data ← in_world (MetOfficeDataHubAPI.async_get_forecast net "hourly");
     setattr (set_data data);;
     setattr (set_available true);;
     mret true)
    (λ err,
       log_error "Error fetching Met Office (DataHub) data: %s";;
       setattr (set_available false);;
       mret false);
  if negb (fetched : bool) then mret tt else
  data ← getattr _data;
  invalid ← lift_result (falsy_or_lacks data "features");
  if (invalid : bool) then log_error "Invalid data received from Met Office (DataHub)" else
  feature ← lift_result (getitem data "features" ≫= getitem0);
  invalid ← lift_result (falsy_or_lacks feature "properties");
  if (invalid : bool) then log_error "Invalid feature data received from Met Office (DataHub)" else
  properties ← lift_result (getitem feature "properties");
  invalid ← lift_result (falsy_or_lacks properties "timeSeries");
  if (invalid : bool) then log_error "Invalid properties data received from Met Office (DataHub)" else
  current ← lift_result (getitem properties "timeSeries" ≫= getitem0);
  if negb (truthy current) then
    log_error "Invalid current conditions data received from Met Office (DataHub)"
  else update_current_conditions current.

(** A forecast dictionary, one field per [ATTR_FORECAST_*] key the code
    fills in. *)
Record Forecast : Type := mkForecast {
  ATTR_FORECAST_TIME : json;
  ATTR_FORECAST_NATIVE_TEMP : json;
  ATTR_FORECAST_NATIVE_TEMP_LOW : json;
  ATTR_FORECAST_CONDITION : string;
  ATTR_FORECAST_NATIVE_PRECIPITATION : json;
  ATTR_FORECAST_PRECIPITATION_PROBABILITY : json;
  ATTR_FORECAST_WIND_SPEED : json;
  ATTR_FORECAST_WIND_BEARING : json;
}.

Section forecasts.

(** What the Python runtime and [homeassistant.util.dt] contribute:
    [parse_datetime] gives [None] on text that is not formed like a
    timestamp and raises (a [ValueError]) on text that is formed like one
    and names no instant, such as the 30th of February; [date_of] is
    [datetime.date()]; [set_iter xs] lists [set(xs)] in the order iteration
    visits it; [adder] is the arithmetic of [sum]. *)
Context {datetime date : Type} `{EqDecision date}.
Variable parse_datetime : string → result (option datetime).
Variable date_of : datetime → date.
Variable set_iter : list json → list json.
Variable adder : summation.

(** [dt_util.parse_datetime(v)] *)
Definition dt_parse_datetime (v : json) : result (option datetime) :=
  match v with
  | JStr s => parse_datetime s
  | _ => Raise TypeError
  end.

(** [set(xs)] *)
Definition py_set (xs : list json) : result (list json) :=
  if forallb hashable xs then Ok (set_iter xs) else Raise TypeError.

Definition column (daily_data : list json) (k : string) : result (list json) :=
  mapM (λ entry, getitem entry k) daily_data.

Definition _create_daily_forecast (daily_data : list json) : result Forecast :=
  temps ← column daily_data "screenTemperature";
  conditions ← column daily_data "significantWeatherCode";
  wind_speeds ← column daily_data "windSpeed10m";
  wind_bearings ← column daily_data "windDirectionFrom10m";
  precip_probs ← column daily_data "probOfPrecipitation";
  condition_code ← py_set conditions ≫= py_max_key (py_count conditions);
  time ← (match daily_data with [] => Raise IndexError | first :: _ => getitem first "time" end);
  temp ← py_max temps;
  templow ← py_min temps;
  condition ← condition_of condition_code;
  precipitation ← py_sum_key adder daily_data "precipitationRate";
  precipitation_probability ← py_max precip_probs;
  wind_speed ← py_max wind_speeds;
  total ← py_sum adder wind_bearings;
  wind_bearing ← truediv (number_json total) (Z.of_nat (length wind_bearings));
  Ok (mkForecast time temp templow condition (number_json precipitation)
        precipitation_probability wind_speed wind_bearing).

(** The variables of the grouping loop. *)
Record grouping : Type := mkGrouping {
  daily_forecasts : list Forecast;
  current_day : option date;
  daily_data : list json;
}.

(** [if daily_data: daily_forecasts.append(self._create_daily_forecast(daily_data))] *)
Definition flush (daily_forecasts : list Forecast) (daily_data : list json)
  : result (list Forecast) :=
  match daily_data with
  | [] => Ok daily_forecasts
  | _ => forecast ← _create_daily_forecast daily_data; Ok (daily_forecasts ++ [forecast])
  end.

(** One pass through the body of [for entry in time_series]. *)
Definition group_entry (g : grouping) (entry : json) : result grouping :=
  timestamp ← getitem entry "time" ≫= dt_parse_datetime;
  match timestamp with
  | None => Ok g
  | Some timestamp =>
      let day := date_of timestamp in
      g' ← match current_day g with
           | None => Ok (mkGrouping (daily_forecasts g) (Some day) (daily_data g))
           | Some current =>
               if decide (day ≠ current) then
                 forecasts ← flush (daily_forecasts g) (daily_data g);
                 Ok (mkGrouping forecasts (Some day) [])
               else Ok g
           end;
      Ok (mkGrouping (daily_forecasts g') (current_day g') (daily_data g' ++ [entry]))
  end.

Fixpoint group_entries (g : grouping) (time_series : list json) : result grouping :=
  match time_series with
  | [] => Ok g
  | entry :: rest => g' ← group_entry g entry; group_entries g' rest
  end.

Definition async_forecast_daily (self : Weather) : result (option (list Forecast)) :=
  if negb (truthy (_data self)) then Ok None else
  feature ← getitem (_data self) "features" ≫= getitem0;
  properties ← getitem feature "properties";
  time_series ← getitem properties "timeSeries" ≫= py_iter;
  g ← group_entries (mkGrouping [] None []) time_series;
  Some <$> flush (daily_forecasts g) (daily_data g).

End forecasts.

End MetOfficeDataHubWeather.

Import MetOfficeDataHubAPI MetOfficeDataHubWeather.

(** ** Well-formed provider data

    A time-series entry with every attribute the entity reads, and the
    response object that carries a time series. *)

Record TimeSeriesEntry : Type := mkEntry {
  time : string;
  screenTemperature : Qc;
  feelsLikeTemperature : Qc;
  screenDewPointTemperature : Qc;
  screenRelativeHumidity : Qc;
  mslp : Qc;
  visibility : Qc;
  windSpeed10m : Qc;
  windDirectionFrom10m : Qc;
  uvIndex : Qc;
  significantWeatherCode : Z;
  precipitationRate : Qc;
  probOfPrecipitation : Qc;
}.

(** A significant-weather code as the provider sends it. *)
Definition code_json (code : Z) : json := JNum (Zc code).

Definition entry_json (e : TimeSeriesEntry) : json :=
  JObj [ ("time", JStr (time e));
         ("screenTemperature", JNum (screenTemperature e));
         ("feelsLikeTemperature", JNum (feelsLikeTemperature e));
         ("screenDewPointTemperature", JNum (screenDewPointTemperature e));
         ("screenRelativeHumidity", JNum (screenRelativeHumidity e));
         ("mslp", JNum (mslp e));
         ("visibility", JNum (visibility e));
         ("windSpeed10m", JNum (windSpeed10m e));
         ("windDirectionFrom10m", JNum (windDirectionFrom10m e));
         ("uvIndex", JNum (uvIndex e));
         ("significantWeatherCode", code_json (significantWeatherCode e));
         ("precipitationRate", JNum (precipitationRate e));
         ("probOfPrecipitation", JNum (probOfPrecipitation e)) ].

Definition response_body (time_series : list TimeSeriesEntry) : dict :=
  [ ("type", JStr "FeatureCollection");
    ("features",
      JArr [ JObj [ ("type", JStr "Feature");
                    ("properties",
                      JObj [ ("modelRunDate", JStr "2024-05-01T00:00Z");
                             ("timeSeries", JArr (entry_json <$> time_series)) ]) ] ]) ].

(** ** Reference instances of the runtime parameters, for examples *)

(** The two-digit number at position [i] of [s]. *)
Definition digit_at (s : string) (i : nat) : option nat :=
  c ← String.get i s;
  let n := Ascii.nat_of_ascii c in
  if (48 <=? n)%nat && (n <=? 57)%nat then Some (n - 48)%nat else None.
Definition two_digits (s : string) (i : nat) : option nat :=
  a ← digit_at s i; b ← digit_at s (S i); Some (10 * a + b)%nat.

Definition days_in (month : nat) : nat :=
  match month with
  | 2 => 29
  | 4 | 6 | 9 | 11 => 30
  | _ => 31
  end%nat.

(** Text of the provider's form [YYYY-MM-DDTHH:MMZ] is a timestamp when
    its month is one of the twelve and its day a day of that month
    (February has 29 days here) and raises [ValueError] otherwise; any
    other text gives [None]. The date is the first ten characters. *)
Definition iso_parse (s : string) : result (option string) :=
  match String.get 4 s, String.get 7 s, String.get 10 s, String.get 13 s with
  | Some "-"%char, Some "-"%char, Some "T"%char, Some ":"%char =>
      match two_digits s 5, two_digits s 8 with
      | Some month, Some day =>
          if ((1 <=? month) && (month <=? 12) && (1 <=? day) && (day <=? days_in month))%nat
          then Ok (Some s) else Raise ValueError
      | _, _ => Ok None
      end
  | _, _, _, _ => Ok None
  end.
Definition iso_date (s : string) : string := String.substring 0 10 s.

(** An adder that never rounds: it is the runtime's on integers, and on
    floats whose running totals are floats themselves. *)
Definition number_add (x y : number) : number :=
  match x, y with
  | Finite a, Finite b => Finite (a + b)%Qc
  | NonFinite NaN, _ | _, NonFinite NaN => NonFinite NaN
  | NonFinite PosInf, NonFinite NegInf | NonFinite NegInf, NonFinite PosInf => NonFinite NaN
  | NonFinite f, _ | _, NonFinite f => NonFinite f
  end.
Definition exact_adder : summation :=
  Summation number (Finite (Zc 0)) (λ acc x, Ok (number_add acc x)) id.

(** CPython's [set] of fewer than five small non-negative integers that
    differ modulo 8: the table has 8 slots, an integer hashes to itself and
    sits in the slot of its value modulo 8, and iteration goes by rising
    slot. *)
Definition slot (x : json) : Z :=
  match as_int_key x with Some k => k `mod` 8 | None => 0 end.
Fixpoint slot_insert (x : json) (xs : list json) : list json :=
  match xs with
  | [] => [x]
  | y :: ys =>
      if py_eq x y then xs
      else if slot x <? slot y then x :: xs
      else y :: slot_insert x ys
  end.
Definition small_int_set (xs : list json) : list json :=
  foldl (λ table x, slot_insert x table) [] xs.

(** ** Reading a trace *)

Fixpoint requests_in (evs : list event) : nat :=
  match evs with
  | [] => 0
  | Request _ :: evs' => S (requests_in evs')
  | _ :: evs' => requests_in evs'
  end.

Fixpoint sleeps_in (evs : list event) : list Z :=
  match evs with
  | [] => []
  | Sleep seconds :: evs' => seconds :: sleeps_in evs'
  | _ :: evs' => sleeps_in evs'
  end.

(** The requests and the sleeps of a trace, in the order they happened. *)
Fixpoint schedule (evs : list event) : list event :=
  match evs with
  | [] => []
  | Log _ _ :: evs' => schedule evs'
  | ev :: evs' => ev :: schedule evs'
  end.

Definition errors_in (evs : list event) : list string :=
  omap (λ ev, match ev with Log ERROR msg => Some msg | _ => None end) evs.

(** ** Vocabulary of the statements *)

(** *** The client *)

Definition valid_forecast_type (forecast_type : string) : Prop :=
  forecast_type ∈ ["hourly"; "three_hourly"; "daily"].

(** The failures the loop answers with another attempt: a rate limit
    (status 429) and a [ClientError] that is not a response error. *)
Definition retryable (e : exn) : bool :=
  match e with
  | ClientResponseError status => status =? 429
  | ClientConnectionError => true
  | _ => false
  end.

(** The sleeps of [n] attempts that each ended in a retry: [2 ** attempt]
    seconds after attempt [attempt]. *)
Definition backoff (n : nat) : list Z := (λ attempt, 2 ^ attempt) <$> range n.

(** The requests and sleeps of [n] attempts of which all but the last
    ended in a retry: each request but the last is followed by a sleep of
    [2 ** attempt] seconds, and nothing follows the last request. *)
Fixpoint retry_schedule (url : string) (attempt : Z) (n : nat) : list event :=
  match n with
  | O => []
  | S n' =>
      match n' with
      | O => [Request url]
      | S _ => Request url :: Sleep (2 ^ attempt) :: retry_schedule url (attempt + 1) n'
      end
  end.

(** The outcome of the last attempt is the outcome of the loop. *)
Definition last_attempt_decides (net : network) (first n : nat)
    (r : result (option json)) : Prop :=
  match net (first + (n - 1))%nat with
  | Ok body => r = Ok (Some body)
  | Raise e => r = Raise e ∧ (retryable e = false ∨ n = 3%nat)
  end.

(** *** The entity *)

Definition MSG_FETCH : string := "Error fetching Met Office (DataHub) data: %s".

(** After a fetch that returns, the entity holds the new response and is
    marked available before the response is looked at. *)
Definition stored (data : json) (self : Weather) : Weather :=
  set_available true (set_data data self).

(** A response body that lacks a required key, with the message the
    entity logs for it. An empty object lacks every key. *)
Inductive structural_gap : dict → string → Prop :=
| gap_features body :
    dict_lookup "features" body = None →
    structural_gap body "Invalid data received from Met Office (DataHub)"
| gap_properties body feature rest :
    dict_lookup "features" body = Some (JArr (JObj feature :: rest)) →
    dict_lookup "properties" feature = None →
    structural_gap body "Invalid feature data received from Met Office (DataHub)"
| gap_timeSeries body feature rest properties :
    dict_lookup "features" body = Some (JArr (JObj feature :: rest)) →
    dict_lookup "properties" feature = Some (JObj properties) →
    dict_lookup "timeSeries" properties = None →
    structural_gap body "Invalid properties data received from Met Office (DataHub)".

Definition no_current_conditions (self : Weather) : Prop :=
  _attr_native_temperature self = JNull
  ∧ _attr_native_apparent_temperature self = JNull
  ∧ _attr_native_dew_point self = JNull
  ∧ _attr_humidity self = JNull
  ∧ _attr_native_pressure self = JNull
  ∧ _attr_native_visibility self = JNull
  ∧ _attr_native_wind_speed self = JNull
  ∧ _attr_wind_bearing self = JNull
  ∧ _attr_uv_index self = JNull
  ∧ _attr_condition self = None.

(** The entity after any number of refreshes, whatever the provider
    answered and whether or not a refresh raised. *)
Inductive reachable : Weather → Prop :=
| reachable_init : reachable init
| reachable_update net self w r self' w' :
    reachable self →
    async_update net (self, w) = (r, (self', w')) →
    reachable self'.

(** The entity with the current conditions of entry [e], at the
    pressure [pressure]. *)
Definition with_current_conditions (e : TimeSeriesEntry) (pressure : Qc) (self : Weather)
  : Weather :=
  mkWeather (_data self) (_attr_available self)
    (JNum (screenTemperature e)) (JNum (feelsLikeTemperature e))
    (JNum (screenDewPointTemperature e)) (JNum (screenRelativeHumidity e))
    (JNum pressure) (JNum (visibility e)) (JNum (windSpeed10m e))
    (JNum (windDirectionFrom10m e)) (JNum (uvIndex e))
    (Some (default "unknown" (CONDITION_MAP !! significantWeatherCode e))).

(** *** Reducers *)









(** *** Days *)

Section days.

Context {datetime date : Type} `{EqDecision date}.
Variable parse_datetime : string → result (option datetime).
Variable date_of : datetime → date.
Variable set_iter : list json → list json.
Variable adder : summation.

(** The parser answers for the entry's timestamp, with an instant or with
    [None]: it does not raise. *)
Definition parser_answers (e : TimeSeriesEntry) : Prop :=
  ∃ answer, parse_datetime (time e) = Ok answer.

(** The calendar date of an entry, when its timestamp parses. *)
Definition day_of (e : TimeSeriesEntry) : option date :=
  match parse_datetime (time e) with
  | Ok (Some timestamp) => Some (date_of timestamp)
  | _ => None
  end.

Definition readable (e : TimeSeriesEntry) : Prop := is_Some (day_of e).

(** A non-empty group of entries of one calendar date. *)
Definition is_day_run (g : list TimeSeriesEntry) : Prop :=
  g ≠ [] ∧ ∃ d, ∀ e, e ∈ g → day_of e = Some d.

(** Neighbouring groups are of different dates. *)
Definition boundaries (groups : list (list TimeSeriesEntry)) : Prop :=
  ∀ i g1 g2 a b,
    groups !! i = Some g1 → groups !! S i = Some g2 →
    a ∈ g1 → b ∈ g2 → day_of a ≠ day_of b.

(** The number of places where the date changes from one entry to the next. *)
Fixpoint date_changes (l : list TimeSeriesEntry) : nat :=
  match l with
  | a :: (b :: _) as l' =>
      ((if decide (day_of a = day_of b) then 0 else 1) + date_changes l')%nat
  | _ => 0%nat
  end.

(** The forecast the code derives from the group [g]. *)
Definition reduces_to (g : list TimeSeriesEntry) (f : Forecast) : Prop :=
  _create_daily_forecast set_iter adder (entry_json <$> g) = Ok f.

(** Making the forecast of a run of consecutive entries of [kept], all
    of one date, raises [err]. *)
Definition raises_on_run (kept : list TimeSeriesEntry) (err : exn) : Prop :=
  ∃ pre run post,
    kept = pre ++ run ++ post
    ∧ is_day_run run
    ∧ _create_daily_forecast set_iter adder (entry_json <$> run) = Raise err.

(** What the loop variables hold once the entries [kept] with a readable
    timestamp have been seen: the groups already reduced, and the open
    group [cur] of the current day. *)
Definition loop_inv (kept : list TimeSeriesEntry)
    (g : grouping) : Prop :=
  ∃ closed cur,
    Forall2 reduces_to closed (daily_forecasts g)
    ∧ daily_data g = entry_json <$> cur
    ∧ kept = concat closed ++ cur
    ∧ Forall is_day_run closed
    ∧ boundaries closed
    ∧ length closed = date_changes kept
    ∧ match current_day g with
      | None => closed = [] ∧ cur = []
      | Some d =>
          cur ≠ []
          ∧ (∀ e, e ∈ cur → day_of e = Some d)
          ∧ (∀ gl b, last closed = Some gl → b ∈ gl → day_of b ≠ Some d)
      end.

End days.

(** ** Example data *)

Definition entry_at (timestamp : string) (temperature bearing : Qc) (code : Z)
  : TimeSeriesEntry :=
  mkEntry timestamp temperature (temperature - Zc 1)%Qc (Zc 4) (Zc 80) (Zc 101325)
    (Zc 20000) (Zc 3) bearing (Zc 1) code (Q2Qc 0.5) (Zc 40).

(** Two days, an entry whose timestamp does not parse, and a return to
    the first day. *)
Definition example_first : TimeSeriesEntry :=
  entry_at "2024-05-01T22:00Z" (Zc 10) (Zc 90) 3.
Definition example_rest : list TimeSeriesEntry :=
  [ entry_at "2024-05-01T23:00Z" (Zc 12) (Zc 180) 1;
    entry_at "not a timestamp" (Zc 50) (Zc 0) 7;
    entry_at "2024-05-02T00:00Z" (Zc 5) (Zc 270) 7;
    entry_at "2024-05-01T00:00Z" (Zc 6) (Zc 10) 7 ].
Definition example_series : list TimeSeriesEntry := example_first :: example_rest.

(** An entry dated the 30th of February. *)
Definition invalid_date_entry : TimeSeriesEntry :=
  entry_at "2024-02-30T00:00Z" (Zc 8) (Zc 45) 7.


Definition net_returning (body : dict) : network := λ _, Ok (JObj body).
Definition net_failing (e : exn) : network := λ _, Raise e.

(** The total time of the first request runs out; the second request is
    answered. *)
Definition net_timeout_then (body : dict) : network :=
  λ n, match n with O => Raise TimeoutError | S _ => Ok (JObj body) end.

(** Every request is answered with the body [null]. *)
Definition net_null : network := λ _, Ok JNull.

(** A response whose list of features is empty. *)
Definition empty_features : dict := [("type", JStr "FeatureCollection"); ("features", JArr [])].

Definition HOURLY_URL : string :=
  "https://data.hub.api.metoffice.gov.uk/sitespecific/v0/point/hourly".
Definition MSG_REQUEST : string :=
  "Making API request for Met Office (DataHub), attempt %d endpoint: %s params: %s".

(** The world after one request that returned. *)
Definition world1 : world := World 1 [Log DEBUG MSG_REQUEST; Request HOURLY_URL].

(** ** weather.py, continued: the hourly forecast *)

(** An hourly forecast dictionary, one field per [ATTR_FORECAST_*] key of
    [async_forecast_hourly] (it has no low temperature). *)
Record HourlyForecast : Type := mkHourly {
  HOURLY_TIME : json;
  HOURLY_NATIVE_TEMP : json;
  HOURLY_CONDITION : string;
  HOURLY_NATIVE_PRECIPITATION : json;
  HOURLY_PRECIPITATION_PROBABILITY : json;
  HOURLY_WIND_SPEED : json;
  HOURLY_WIND_BEARING : json;
}.

(** The dictionary display of the list comprehension, for one [entry]. *)
Definition hourly_entry (entry : json) : result HourlyForecast :=
  time ← getitem entry "time";
  temp ← getitem entry "screenTemperature";
  condition ← getitem entry "significantWeatherCode" ≫= condition_of;
  precipitation ← getitem entry "precipitationRate";
  precipitation_probability ← getitem entry "probOfPrecipitation";
  wind_speed ← getitem entry "windSpeed10m";
  wind_bearing ← getitem entry "windDirectionFrom10m";
  Ok (mkHourly time temp condition precipitation precipitation_probability
        wind_speed wind_bearing).

Definition async_forecast_hourly (self : Weather) : result (option (list HourlyForecast)) :=
  if negb (truthy (_data self)) then Ok None else
  feature ← getitem (_data self) "features" ≫= getitem0;
  properties ← getitem feature "properties";
  time_series ← getitem properties "timeSeries" ≫= py_iter;
  Some <$> mapM hourly_entry time_series.

(** [async_added_to_hass]: the base class's hook, then a refresh. *)
Definition async_added_to_hass (net : network) : M (Weather * world) unit :=
  async_update net.

(** ** More vocabulary *)

(** The hourly record of a well-formed entry. *)
Definition hourly_record (e : TimeSeriesEntry) : HourlyForecast :=
  mkHourly (JStr (time e)) (JNum (screenTemperature e))
    (default "unknown" (CONDITION_MAP !! significantWeatherCode e))
    (JNum (precipitationRate e)) (JNum (probOfPrecipitation e))
    (JNum (windSpeed10m e)) (JNum (windDirectionFrom10m e)).

(** A response object around any time series. *)
Definition response_with (time_series : list json) : dict :=
  [ ("type", JStr "FeatureCollection");
    ("features",
      JArr [ JObj [ ("type", JStr "Feature");
                    ("properties",
                      JObj [ ("modelRunDate", JStr "2024-05-01T00:00Z");
                             ("timeSeries", JArr time_series) ]) ] ]) ].

(** The condition names the table holds, and the default. *)
Definition CONDITIONS : list string :=
  [ "clear-night"; "sunny"; "partlycloudy"; "fog"; "cloudy"; "lightning-rainy";
    "rainy"; "snowy-rainy"; "snowy"; "lightning"; "unknown" ].

(** The keys [async_update] reads from the first entry, in the order it
    reads them. *)
Definition CURRENT_KEYS : list string :=
  [ "screenTemperature"; "feelsLikeTemperature"; "screenDewPointTemperature";
    "screenRelativeHumidity"; "mslp"; "visibility"; "windSpeed10m";
    "windDirectionFrom10m"; "uvIndex"; "significantWeatherCode" ].

(** The URLs of the requests in a trace. *)
Fixpoint request_urls (evs : list event) : list string :=
  match evs with
  | [] => []
  | Request url :: evs' => url :: request_urls evs'
  | _ :: evs' => request_urls evs'
  end.

(** The seconds slept in a trace. *)
Definition seconds_slept (evs : list event) : Z := foldr Z.add 0 (sleeps_in evs).

(** A first entry that has a timestamp and a temperature and nothing else. *)
Definition partial_entry : dict :=
  [("time", JStr "2024-05-01T22:00Z"); ("screenTemperature", JNum (Zc 10))].

(** An entry that holds nothing but a timestamp that does not parse. *)
Definition unparsed_entry : dict := [("time", JStr "not a timestamp")].

(** A response object without ['features']. *)
Definition no_features : dict := [("type", JStr "FeatureCollection")].


(** The record the client logs at level [ERROR] before it raises [e]:
    one for a [ClientError], none for any other exception. *)
Definition error_records (e : exn) : list string :=
  match e with
  | ClientResponseError status =>
      if status =? 401 then ["Invalid API key for Met Office (DataHub)"]
      else ["Error fetching Met Office (DataHub) data: %s"]
  | ClientConnectionError => ["Error communicating with Met Office (DataHub): %s"]
  | _ => []
  end.

(** The number of records of level [WARNING] in a trace. *)
Fixpoint warnings_in (evs : list event) : nat :=
  match evs with
  | [] => 0
  | Log WARNING _ :: evs' => S (warnings_in evs')
  | _ :: evs' => warnings_in evs'
  end.


(** ** The integration inside Home Assistant

    [__init__.py], [config_flow.py] and the platform set-up of
    [weather.py], run on the part of Home Assistant they touch. *)

Definition CONF_API_KEY : string := "api_key".
Definition CONF_LATITUDE : string := "latitude".
Definition CONF_LONGITUDE : string := "longitude".

(** A [MetOfficeDataHubAPI] object: [__init__] stores its three arguments
    and creates an [aiohttp.ClientSession]. A session is named by the
    number of sessions created before it. *)
Record client : Type := mkClient {
  _api_key : json;
  _latitude : json;
  _longitude : json;
  _session : nat;
}.

(** A [ConfigEntry], with the attributes the code reads. *)
Record ConfigEntry : Type := mkConfigEntry {
  entry_id : string;
  data : dict;
  title : string;
}.

(** A [MetOfficeDataHubWeather] object: what [__init__] sets besides the
    attributes of [Weather]. *)
Record Entity : Type := mkEntity {
  _api : client;
  _attr_name : string;
  _attr_unique_id : string;
  attributes : Weather;
}.

(** Home Assistant, as far as the integration touches it: [hass_data] is
    [hass.data.get(DOMAIN)], a dictionary from entry ids to clients when
    present; [added] lists the entities handed to [async_add_entities];
    [opened] counts the sessions created, [closed] lists the sessions
    whose [close()] was awaited, in order; [outside] is the provider and
    the log. *)
Record HomeAssistant : Type := mkHass {
  hass_data : option (gmap string client);
  added : list Entity;
  opened : nat;
  closed : list nat;
  outside : world;
}.

Definition set_hass_data (v : option (gmap string client)) (h : HomeAssistant)
  : HomeAssistant := mkHass v (added h) (opened h) (closed h) (outside h).
Definition set_added (v : list Entity) (h : HomeAssistant) : HomeAssistant :=
  mkHass (hass_data h) v (opened h) (closed h) (outside h).
Definition set_opened (v : nat) (h : HomeAssistant) : HomeAssistant :=
  mkHass (hass_data h) (added h) v (closed h) (outside h).
Definition set_closed (v : list nat) (h : HomeAssistant) : HomeAssistant :=
  mkHass (hass_data h) (added h) (opened h) v (outside h).
Definition set_outside (v : world) (h : HomeAssistant) : HomeAssistant :=
  mkHass (hass_data h) (added h) (opened h) (closed h) v.

(** [MetOfficeDataHubAPI.__init__] *)
Definition API_init (api_key latitude longitude : json) : M HomeAssistant client :=
  λ h, (Ok (mkClient api_key latitude longitude (opened h)), set_opened (S (opened h)) h).

(** [MetOfficeDataHubAPI.async_close]: [await self._session.close()] *)
Definition async_close (api : client) : M HomeAssistant unit :=
  modify (λ h, set_closed (closed h ++ [_session api]) h).

(** A method of the client, run on the outside world of Home Assistant. *)
Definition in_outside {A} (m : M world A) : M HomeAssistant A :=
  λ h, let '(r, w) := m (outside h) in (r, set_outside w h).

(** [hass.data[DOMAIN]] *)
Definition domain_data : M HomeAssistant (gmap string client) :=
  λ h, (match hass_data h with Some domain => Ok domain | None => Raise KeyError end, h).

(** [d[k]] for a dictionary of clients *)
Definition client_of (domain : gmap string client) (k : string) : result client :=
  match domain !! k with Some api => Ok api | None => Raise KeyError end.

(** [MetOfficeDataHubWeather.__init__] (weather.py, lines 101-108);
    [py_str] is the text an f-string puts for a value. *)
Definition Weather_init (py_str : json → string) (api : client) (name : string) : Entity :=
  mkEntity api name
    ("metoffice_datahub_" +:+ py_str (_latitude api) +:+ "_" +:+ py_str (_longitude api))
    init.

(** The callback that records the entities it is given. *)
Definition add_entities (new_entities : list Entity) : M HomeAssistant unit :=
  modify (λ h, set_added (added h ++ new_entities) h).

Module WeatherPlatform.

(** weather.py, [async_setup_entry] (lines 75-83) *)
Definition async_setup_entry (py_str : json → string)
    (async_add_entities : list Entity → M HomeAssistant unit) (entry : ConfigEntry)
  : M HomeAssistant unit :=
  domain ← domain_data;
  api ← lift_result (client_of domain (entry_id entry));
  async_add_entities [Weather_init py_str api (title entry)].

End WeatherPlatform.

Module Integration.

Section framework.

(** [hass.config_entries.async_forward_entry_setups(entry, PLATFORMS)] and
    [hass.config_entries.async_unload_platforms(entry, PLATFORMS)] *)
Variable async_forward_entry_setups : ConfigEntry → M HomeAssistant unit.
Variable async_unload_platforms : ConfigEntry → M HomeAssistant bool.

(** __init__.py, [async_setup_entry] (lines 14-33). The arguments of the
    constructor are evaluated before it is called, and the right-hand side
    of the assignment before [hass.data[DOMAIN]]. *)
Definition async_setup_entry (entry : ConfigEntry) : M HomeAssistant bool :=
  modify (λ h, set_hass_data (Some (default ∅ (hass_data h))) h);;
  api_key ← lift_result (getitem (JObj (data entry)) "api_key");
  latitude ← lift_result (getitem (JObj (data entry)) "latitude");
  longitude ← lift_result (getitem (JObj (data entry)) "longitude");
  api ← API_init api_key latitude longitude;
  domain ← domain_data;
  modify (set_hass_data (Some (<[entry_id entry := api]> domain)));;
  async_forward_entry_setups entry;;
  mret true.

(** __init__.py, [async_unload_entry] (lines 36-50) *)
Definition async_unload_entry (entry : ConfigEntry) : M HomeAssistant bool :=
  unload_ok ← async_unload_platforms entry;
  (if (unload_ok : bool) then
     domain ← domain_data;
     api ← lift_result (client_of domain (entry_id entry));
     modify (set_hass_data (Some (delete (entry_id entry) domain)));;
     async_close api
   else mret tt);;
  mret unload_ok.

End framework.

End Integration.

Module ConfigFlow.

(** What leaves [validate_input]: [CannotConnect], raised from [cause], or
    another exception. *)
Inductive flow_exn : Type :=
| CannotConnect (cause : exn)
| Exception (e : exn).

(** The call a step ends with: [async_create_entry(title=, data=)] or
    [async_show_form(step_id=, data_schema=STEP_USER_DATA_SCHEMA, errors=)]. *)
Inductive FlowResult : Type :=
| CreateEntry (entry_title : string) (entry_data : dict)
| ShowForm (step_id : string) (errors : list (string * string)).

(** [f"Met Office ({data[CONF_LATITUDE]}, {data[CONF_LONGITUDE]})"] *)
Definition title_of (py_str : json → string) (input : dict) : result string :=
  latitude ← getitem (JObj input) CONF_LATITUDE;
  longitude ← getitem (JObj input) CONF_LONGITUDE;
  Ok ("Met Office (" +:+ py_str latitude +:+ ", " +:+ py_str longitude +:+ ")").

(** config_flow.py, [validate_input] (lines 53-70) *)
Definition validate_input (net : network) (py_str : json → string) (input : dict)
    (h : HomeAssistant) : (flow_exn + string) * HomeAssistant :=
  match
    (api_key ← lift_result (getitem (JObj input) CONF_API_KEY);
     latitude ← lift_result (getitem (JObj input) CONF_LATITUDE);
     longitude ← lift_result (getitem (JObj input) CONF_LONGITUDE);
     API_init api_key latitude longitude) h
  with
  | (Raise e, h0) => (inl (Exception e), h0)
  | (Ok api, h0) =>
      match in_outside (async_get_forecast net "hourly") h0 with
      | (Raise err, h1) =>
          (* except Exception as err: log, raise CannotConnect from err;
             finally: close *)
          let h2 := (in_outside (emit (Log ERROR "Error validating input: %s")) h1).2 in
          (inl (CannotConnect err), (async_close api h2).2)
      | (Ok _, h1) =>
          let h2 := (async_close api h1).2 in
          match title_of py_str input with
          | Ok info => (inr info, h2)
          | Raise e => (inl (Exception e), h2)
          end
      end
  end.

(** config_flow.py, [async_step_user] (lines 78-96) *)
Definition async_step_user (net : network) (py_str : json → string)
    (user_input : option dict) (h : HomeAssistant) : FlowResult * HomeAssistant :=
  match user_input with
  | None => (ShowForm "user" [], h)
  | Some input =>
      match validate_input net py_str input h with
      | (inr info, h') => (CreateEntry info input, h')
      | (inl (CannotConnect _), h') => (ShowForm "user" [("base", "cannot_connect")], h')
      | (inl (Exception _), h') =>
          (ShowForm "user" [("base", "unknown")],
           (in_outside (emit (Log ERROR "Unexpected exception")) h').2)
      end
  end.

End ConfigFlow.

(** The sessions created and not closed. *)
Definition open_sessions (h : HomeAssistant) : list nat :=
  filter (λ s, s ∉ closed h) (seq 0 (opened h)).

(** The input carries the three keys the flow reads. *)
Definition complete (input : dict) : Prop :=
  is_Some (dict_lookup CONF_API_KEY input)
  ∧ is_Some (dict_lookup CONF_LATITUDE input)
  ∧ is_Some (dict_lookup CONF_LONGITUDE input).

(** A Home Assistant that has not loaded the integration. *)
Definition hass0 : HomeAssistant := mkHass None [] 0 [] world0.

Definition example_input : dict :=
  [ ("api_key", JStr "secret"); ("latitude", JNum (Zc 51)); ("longitude", JNum (Zc (-2))) ].

Definition example_entry : ConfigEntry :=
  mkConfigEntry "entry-1" example_input "Met Office (51, -2)".

(** A formatting of values for the examples: the text of a string, the
    decimal digits of a whole number, a question mark for anything else. *)
Definition show (v : json) : string :=
  match v with
  | JStr s => s
  | JNum q => if (Qden (this q) =? 1)%positive then pretty (Qnum (this q)) else "?"
  | _ => "?"
  end.


(** A platform unload that only answers [ok]. *)
Definition platforms_unloaded (ok : bool) : ConfigEntry → M HomeAssistant bool :=
  λ _ h, (Ok ok, h).


(** The keys [async_forecast_hourly] reads from every entry, in the order
    it reads them. *)
Definition HOURLY_KEYS : list string :=
  [ "time"; "screenTemperature"; "significantWeatherCode"; "precipitationRate";
    "probOfPrecipitation"; "windSpeed10m"; "windDirectionFrom10m" ].


(** * Properties *)

#[local] Arguments Qcdiv : simpl never.
#[local] Arguments Qcplus : simpl never.
#[local] Arguments Qccompare : simpl never.
#[local] Arguments Q2Qc : simpl never.
#[local] Arguments Zc : simpl never.
#[local] Opaque CONDITION_MAP.

Ltac run :=
  unfold mbind, M_bind, mret, M_ret, try_except, raise, emit, modify, sleep,
    session_get, lift_result in *; simpl in *.

Ltac close_trace :=
  simpl; rewrite <- ?(assoc_L (++)); eexists; split; [reflexivity|]; split_and!; reflexivity.

Ltac run_entity :=
  unfold log_error in *;
  unfold mbind, M_bind, mret, M_ret, try_except, raise,
    lift_result, setattr, getattr, in_world, emit in *;
  unfold modify in *; simpl in *.

(** ** The client: one attempt *)

Lemma valid_endpoint forecast_type :
  valid_forecast_type forecast_type → is_Some (ENDPOINTS !! forecast_type).
Proof.
  unfold valid_forecast_type. rewrite !elem_of_cons, elem_of_nil.
  intros [->|[->|[->|[]]]]; vm_compute; eauto.
Qed.

Lemma invalid_endpoint forecast_type :
  ¬ valid_forecast_type forecast_type → ENDPOINTS !! forecast_type = None.
Proof.
  unfold valid_forecast_type, ENDPOINTS. intros Hn.
  apply not_elem_of_list_to_map_1. simpl. exact Hn.
Qed.

Lemma hourly_valid : valid_forecast_type "hourly".
Proof. unfold valid_forecast_type. set_solver. Qed.

Lemma requests_in_app evs1 evs2 :
  requests_in (evs1 ++ evs2) = (requests_in evs1 + requests_in evs2)%nat.
Proof. induction evs1 as [|[]]; simpl; auto. Qed.

Lemma sleeps_in_app evs1 evs2 :
  sleeps_in (evs1 ++ evs2) = sleeps_in evs1 ++ sleeps_in evs2.
Proof. induction evs1 as [|[]]; simpl; auto. by f_equal. Qed.

Lemma schedule_app evs1 evs2 : schedule (evs1 ++ evs2) = schedule evs1 ++ schedule evs2.
Proof. induction evs1 as [|[]]; simpl; auto; by f_equal. Qed.

(** An attempt that is not the last one and fails with a retryable error
    sleeps [2 ^ attempt] seconds and goes to the next attempt. *)
Lemma attempt_body_retry net endpoint attempt w e :
  net (sent w) = Raise e → retryable e = true → attempt < 2 →
  ∃ evs, attempt_body net endpoint attempt w
         = (Ok Continue, World (S (sent w)) (trace w ++ evs))
       ∧ requests_in evs = 1%nat ∧ sleeps_in evs = [2 ^ attempt]
       ∧ schedule evs = [Request endpoint; Sleep (2 ^ attempt)].
Proof.
  intros Hnet He Hlt. unfold attempt_body. run. rewrite Hnet.
  destruct e; try discriminate; simpl in *.
  - assert (status = 429) as -> by lia. simpl.
    destruct (attempt <? 2) eqn:E; [|lia]. close_trace.
  - destruct (attempt <? 2) eqn:E; [|lia]. close_trace.
Qed.

(** An attempt whose request is answered returns the parsed body. *)
Lemma attempt_body_return net endpoint attempt w body :
  net (sent w) = Ok body →
  ∃ evs, attempt_body net endpoint attempt w
         = (Ok (Return body), World (S (sent w)) (trace w ++ evs))
       ∧ requests_in evs = 1%nat ∧ sleeps_in evs = []
       ∧ schedule evs = [Request endpoint].
Proof. intros Hnet. unfold attempt_body. run. rewrite Hnet. close_trace. Qed.

(** Every other failure, and every failure of the last attempt, leaves
    the loop at once with that error and without sleeping. *)
Lemma attempt_body_raise net endpoint attempt w e :
  net (sent w) = Raise e → retryable e = false ∨ 2 ≤ attempt →
  ∃ evs, attempt_body net endpoint attempt w
         = (Raise e, World (S (sent w)) (trace w ++ evs))
       ∧ requests_in evs = 1%nat ∧ sleeps_in evs = []
       ∧ schedule evs = [Request endpoint].
Proof.
  intros Hnet He. unfold attempt_body. run. rewrite Hnet.
  destruct e; simpl in *; try close_trace.
  - destruct (status =? 401) eqn:E1; simpl; [close_trace|].
    destruct (status =? 429) eqn:E2; simpl; [|close_trace].
    destruct (attempt <? 2) eqn:E3; [destruct He; [discriminate|lia]|]. close_trace.
  - destruct (attempt <? 2) eqn:E3; [destruct He; [discriminate|lia]|]. close_trace.
Qed.

(** ** The client: the retry loop *)

Lemma for_in_cons {S I A} (x : I) (xs : list I) (body : I → M S (flow A)) s :
  for_in (x :: xs) body s =
  match body x s with
  | (Ok (Return a), s') => (Ok (Some a), s')
  | (Ok Continue, s') => for_in xs body s'
  | (Raise e, s') => (Raise e, s')
  end.
Proof.
  simpl. unfold mbind, M_bind. destruct (body x s) as [[[|a]|e] s']; reflexivity.
Qed.

(** The loop makes between one and three requests; every attempt before
    the last failed with a retryable error and was followed by its sleep;
    the last attempt returned, or raised an error that is not retried or
    was the third, and nothing follows its request. *)
Lemma retry_loop_spec net endpoint w :
  ∃ evs r,
    retry_loop net endpoint w
    = (r, World (sent w + requests_in evs) (trace w ++ evs))
    ∧ (1 ≤ requests_in evs ≤ 3)%nat
    ∧ (∀ i, (i < requests_in evs - 1)%nat →
         ∃ e, net (sent w + i)%nat = Raise e ∧ retryable e = true)
    ∧ sleeps_in evs = take (requests_in evs - 1) [1; 2]
    ∧ schedule evs = retry_schedule endpoint 0 (requests_in evs)
    ∧ last_attempt_decides net (sent w) (requests_in evs) r.
Proof.
  unfold retry_loop, last_attempt_decides.
  change (range 3) with [0; 1; 2].
  (* first attempt *)
  rewrite for_in_cons.
  destruct (net (sent w)) as [body0|e0] eqn:H0.
  { destruct (attempt_body_return net endpoint 0 w body0 H0) as (evs & -> & Hr & Hs & Hq).
    exists evs, (Ok (Some body0)). rewrite Hr, Hs, Hq.
    replace (sent w + 1)%nat with (S (sent w)) by lia.
    replace (sent w + (1 - 1))%nat with (sent w) by lia. rewrite H0.
    repeat split; try lia; try done. }
  destruct (retryable e0) eqn:R0; cycle 1.
  { destruct (attempt_body_raise net endpoint 0 w e0 H0 (or_introl R0))
      as (evs & -> & Hr & Hs & Hq).
    exists evs, (Raise e0). rewrite Hr, Hs, Hq.
    replace (sent w + 1)%nat with (S (sent w)) by lia.
    replace (sent w + (1 - 1))%nat with (sent w) by lia. rewrite H0.
    repeat split; try lia; try done; auto. }
  destruct (attempt_body_retry net endpoint 0 w e0 H0 R0 ltac:(lia))
    as (evs0 & -> & Hr0 & Hs0 & Hq0).
  set (w1 := World (S (sent w)) (trace w ++ evs0)).
  assert (Hw1 : sent w1 = (sent w + 1)%nat) by (simpl; lia).
  (* second attempt *)
  rewrite for_in_cons.
  destruct (net (sent w1)) as [body1|e1] eqn:H1.
  { destruct (attempt_body_return net endpoint 1 w1 body1 H1) as (evs & -> & Hr & Hs & Hq).
    exists (evs0 ++ evs), (Ok (Some body1)).
    rewrite requests_in_app, sleeps_in_app, schedule_app, Hr0, Hr, Hs0, Hs, Hq0, Hq. simpl.
    replace (sent w + 2)%nat with (S (S (sent w))) by lia.
    rewrite <- Hw1, H1, (assoc_L (++)).
    repeat split; try lia; try done.
    intros i Hi. assert (i = 0%nat) as -> by lia.
    replace (sent w + 0)%nat with (sent w) by lia. eauto. }
  destruct (retryable e1) eqn:R1; cycle 1.
  { destruct (attempt_body_raise net endpoint 1 w1 e1 H1 (or_introl R1))
      as (evs & -> & Hr & Hs & Hq).
    exists (evs0 ++ evs), (Raise e1).
    rewrite requests_in_app, sleeps_in_app, schedule_app, Hr0, Hr, Hs0, Hs, Hq0, Hq. simpl.
    replace (sent w + 2)%nat with (S (S (sent w))) by lia.
    rewrite <- Hw1, H1, (assoc_L (++)).
    repeat split; try lia; try done; auto.
    intros i Hi. assert (i = 0%nat) as -> by lia.
    replace (sent w + 0)%nat with (sent w) by lia. eauto. }
  destruct (attempt_body_retry net endpoint 1 w1 e1 H1 R1 ltac:(lia))
    as (evs1 & -> & Hr1 & Hs1 & Hq1).
  set (w2 := World (S (sent w1)) (trace w1 ++ evs1)).
  assert (Hw2 : sent w2 = (sent w + 2)%nat) by (simpl; lia).
  (* third attempt *)
  rewrite for_in_cons.
  assert (Hearlier : ∀ i, (i < 2)%nat → ∃ e, net (sent w + i)%nat = Raise e ∧ retryable e = true).
  { intros i Hi. destruct i as [|[|]]; [| |lia].
    - replace (sent w + 0)%nat with (sent w) by lia. eauto.
    - rewrite <- Hw1. eauto. }
  destruct (net (sent w2)) as [body2|e2] eqn:H2.
  { destruct (attempt_body_return net endpoint 2 w2 body2 H2) as (evs & -> & Hr & Hs & Hq).
    exists (evs0 ++ evs1 ++ evs), (Ok (Some body2)).
    rewrite !requests_in_app, !sleeps_in_app, !schedule_app,
      Hr0, Hr1, Hr, Hs0, Hs1, Hs, Hq0, Hq1, Hq. simpl.
    replace (sent w + 3)%nat with (S (S (S (sent w)))) by lia.
    rewrite <- Hw2, H2, !(assoc_L (++)).
    repeat split; try lia; try done. }
  assert (Hlast : retryable e2 = false ∨ 2 ≤ 2) by (right; lia).
  destruct (attempt_body_raise net endpoint 2 w2 e2 H2 Hlast) as (evs & -> & Hr & Hs & Hq).
  exists (evs0 ++ evs1 ++ evs), (Raise e2).
  rewrite !requests_in_app, !sleeps_in_app, !schedule_app,
    Hr0, Hr1, Hr, Hs0, Hs1, Hs, Hq0, Hq1, Hq. simpl.
  replace (sent w + 3)%nat with (S (S (S (sent w)))) by lia.
  rewrite <- Hw2, H2, !(assoc_L (++)).
  repeat split; try lia; try done; auto.
Qed.

Lemma async_get_forecast_path net forecast_type w path :
  ENDPOINTS !! forecast_type = Some path →
  ∃ evs r,
    async_get_forecast net forecast_type w
    = (r, World (sent w + requests_in evs) (trace w ++ evs))
    ∧ (1 ≤ requests_in evs ≤ 3)%nat
    ∧ (∀ i, (i < requests_in evs - 1)%nat →
         ∃ e, net (sent w + i)%nat = Raise e ∧ retryable e = true)
    ∧ sleeps_in evs = backoff (requests_in evs - 1)
    ∧ schedule evs = retry_schedule (BASE_URL +:+ path) 0 (requests_in evs)
    ∧ match net (sent w + (requests_in evs - 1))%nat with
      | Ok body => r = Ok body
      | Raise e => r = Raise e ∧ (retryable e = false ∨ requests_in evs = 3%nat)
      end.
Proof.
  intros Hpath. unfold async_get_forecast. rewrite Hpath.
  destruct (retry_loop_spec net (BASE_URL +:+ path) w)
    as (evs & r & Hloop & Hn & Hearlier & Hsleeps & Hschedule & Hlast).
  unfold mbind, M_bind. rewrite Hloop.
  unfold last_attempt_decides in Hlast.
  assert (Hb : take (requests_in evs - 1) [1; 2] = backoff (requests_in evs - 1)).
  { destruct (requests_in evs) as [|[|[|[|]]]]; try lia; reflexivity. }
  destruct (net (sent w + (requests_in evs - 1))%nat) as [body|e] eqn:Hnet.
  - subst r. exists evs, (Ok body). rewrite Hnet, <- Hb. split_and!; done || lia.
  - destruct Hlast as [-> Hwhy]. exists evs, (Raise e). rewrite Hnet, <- Hb.
    split_and!; done || lia.
Qed.

Lemma async_get_forecast_spec net forecast_type w :
  valid_forecast_type forecast_type →
  ∃ evs r,
    async_get_forecast net forecast_type w
    = (r, World (sent w + requests_in evs) (trace w ++ evs))
    ∧ (1 ≤ requests_in evs ≤ 3)%nat
    ∧ (∀ i, (i < requests_in evs - 1)%nat →
         ∃ e, net (sent w + i)%nat = Raise e ∧ retryable e = true)
    ∧ sleeps_in evs = backoff (requests_in evs - 1)
    ∧ match net (sent w + (requests_in evs - 1))%nat with
      | Ok body => r = Ok body
      | Raise e => r = Raise e ∧ (retryable e = false ∨ requests_in evs = 3%nat)
      end.
Proof.
  intros [path Hpath]%valid_endpoint.
  destruct (async_get_forecast_path net forecast_type w path Hpath)
    as (evs & r & Hrun & Hn & Hearlier & Hsleeps & _ & Hlast).
  exists evs, r. split_and!; done || lia.
Qed.

Lemma async_get_forecast_invalid net forecast_type w :
  ¬ valid_forecast_type forecast_type →
  async_get_forecast net forecast_type w = (Raise ValueError, w).
Proof.
  intros Hinvalid%invalid_endpoint. unfold async_get_forecast. by rewrite Hinvalid.
Qed.

Lemma weekly_invalid : ¬ valid_forecast_type "weekly".
Proof. unfold valid_forecast_type. set_solver. Qed.

(** The number of requests is the position of the first attempt that
    does not end in a retry. *)
Lemma requests_until (net : network) w n k :
  (1 ≤ n ≤ 3)%nat → (k < 3)%nat →
  (∀ i, (i < n - 1)%nat → ∃ e, net (sent w + i)%nat = Raise e ∧ retryable e = true) →
  (∀ i, (i < k)%nat → ∃ e, net (sent w + i)%nat = Raise e ∧ retryable e = true) →
  match net (sent w + (n - 1))%nat with
  | Ok _ => True
  | Raise e => retryable e = false ∨ n = 3%nat
  end →
  match net (sent w + k)%nat with
  | Ok _ => True
  | Raise e => retryable e = false ∨ k = 2%nat
  end →
  n = S k.
Proof.
  intros Hn Hk Hearlier Hfail Hlast Hstop.
  destruct (decide (n - 1 < k)%nat) as [Hlt|Hge].
  - destruct (Hfail _ Hlt) as (e & He & Re). rewrite He in Hlast.
    destruct Hlast as [Hno|Hyes]; [congruence|lia].
  - destruct (decide (k < n - 1)%nat) as [Hlt|Hge']; [|lia].
    destruct (Hearlier _ Hlt) as (e & He & Re). rewrite He in Hstop.
    destruct Hstop as [Hno|Hyes]; [congruence|lia].
Qed.

(** C4, at the failing input: the total time of the first request runs
    out, which raises asyncio's [TimeoutError], and the second request
    would be answered. The time-out is no [ClientError], so the fetch
    raises it after one request, without a sleep, and the answer is never
    asked for. *)
Lemma fetch_retry_policy_counterexample :
  retryable TimeoutError = false
  ∧ net_timeout_then (response_body example_series) 1%nat
    = Ok (JObj (response_body example_series))
  ∧ async_get_forecast (net_timeout_then (response_body example_series)) "hourly" world0
    = (Raise TimeoutError, world1)
  ∧ schedule (trace world1) = [Request HOURLY_URL].
Proof. by split_and!. Qed.

(** C4, amended. Whatever the provider does, a fetch of a valid forecast
    type makes at most three requests, and its requests and sleeps come in
    this order: a request, and before each further request a sleep of
    [2 ** attempt] seconds (1 s after the first attempt, 2 s after the
    second); nothing follows the last request. An attempt is retried when
    it ends in status 429 or in a [ClientError] that is no response error
    (a failed or reset connection, a time-out that aiohttp reports as
    one). When three attempts in a row end so, the fetch raises the third
    error and makes no fourth request. When attempt [k] (0, 1 or 2) is
    answered after [k] such failures, the fetch returns that answer's
    parsed body at once, after [k + 1] requests. Any other failure of
    attempt [k], asyncio's [TimeoutError] among them, is raised at once
    and is not retried. *)
Theorem fetch_retry_policy net forecast_type w path :
  ENDPOINTS !! forecast_type = Some path →
  ∃ evs r,
    async_get_forecast net forecast_type w
    = (r, World (sent w + requests_in evs) (trace w ++ evs))
    ∧ (requests_in evs ≤ 3)%nat
    ∧ schedule evs = retry_schedule (BASE_URL +:+ path) 0 (requests_in evs)
    ∧ (∀ e0 e1 e2,
         net (sent w) = Raise e0 → retryable e0 = true →
         net (sent w + 1)%nat = Raise e1 → retryable e1 = true →
         net (sent w + 2)%nat = Raise e2 → retryable e2 = true →
         r = Raise e2
         ∧ schedule evs
           = [ Request (BASE_URL +:+ path); Sleep 1; Request (BASE_URL +:+ path); Sleep 2;
               Request (BASE_URL +:+ path) ])
    ∧ (∀ k body,
         (k < 3)%nat →
         (∀ i, (i < k)%nat → ∃ e, net (sent w + i)%nat = Raise e ∧ retryable e = true) →
         net (sent w + k)%nat = Ok body →
         r = Ok body ∧ requests_in evs = S k)
    ∧ (∀ k e,
         (k < 3)%nat →
         (∀ i, (i < k)%nat → ∃ e, net (sent w + i)%nat = Raise e ∧ retryable e = true) →
         net (sent w + k)%nat = Raise e → retryable e = false →
         r = Raise e ∧ requests_in evs = S k).
Proof.
  intros Hpath.
  destruct (async_get_forecast_path net forecast_type w path Hpath)
    as (evs & r & Hrun & Hn & Hearlier & Hsleeps & Hschedule & Hlast).
  exists evs, r. split; [exact Hrun|]. split; [lia|]. split; [exact Hschedule|].
  assert (Hstops : match net (sent w + (requests_in evs - 1))%nat with
                   | Ok _ => True
                   | Raise e => retryable e = false ∨ requests_in evs = 3%nat
                   end).
  { destruct (net (sent w + (requests_in evs - 1))%nat); [done|]. by destruct Hlast. }
  split_and!.
  - intros e0 e1 e2 H0 R0 H1 R1 H2 R2.
    assert (Hfail : ∀ i, (i < 2)%nat → ∃ e, net (sent w + i)%nat = Raise e ∧ retryable e = true).
    { intros [|[|]] Hi; [| |lia]; eauto.
      replace (sent w + 0)%nat with (sent w) by lia; eauto. }
    assert (requests_in evs = 3%nat) as Hthree.
    { apply (requests_until net w _ 2 Hn ltac:(lia) Hearlier Hfail Hstops).
      rewrite H2. by right. }
    rewrite Hthree in *. simpl in Hlast.
    rewrite H2 in Hlast. destruct Hlast as [-> _]. split; [done|]. exact Hschedule.
  - intros k body Hk Hfail Hok.
    assert (requests_in evs = S k) as Hnk.
    { apply (requests_until net w _ k Hn Hk Hearlier Hfail Hstops). by rewrite Hok. }
    rewrite Hnk in *. replace (S k - 1)%nat with k in * by lia.
    rewrite Hok in Hlast. auto.
  - intros k e Hk Hfail Hnet Hno.
    assert (requests_in evs = S k) as Hnk.
    { apply (requests_until net w _ k Hn Hk Hearlier Hfail Hstops). rewrite Hnet. by left. }
    rewrite Hnk in *. replace (S k - 1)%nat with k in * by lia.
    rewrite Hnet in Hlast. by destruct Hlast as [-> _].
Qed.

Lemma fetch_retry_policy_witness :
  ENDPOINTS !! "hourly" = Some "/hourly"
  ∧ ∃ evs,
      async_get_forecast (net_failing (ClientResponseError 429)) "hourly" world0
      = (Raise (ClientResponseError 429), World (0 + requests_in evs) ([] ++ evs))
      ∧ requests_in evs = 3%nat
      ∧ schedule evs
        = [Request HOURLY_URL; Sleep 1; Request HOURLY_URL; Sleep 2; Request HOURLY_URL].
Proof.
  split; [reflexivity|].
  destruct (fetch_retry_policy (net_failing (ClientResponseError 429)) "hourly" world0
              "/hourly" eq_refl) as (evs & r & Hrun & Hle & Hschedule & Hall & _).
  destruct (Hall _ _ _ eq_refl eq_refl eq_refl eq_refl eq_refl eq_refl) as (-> & Hs).
  exists evs. split; [exact Hrun|]. split; [|exact Hs].
  assert (Hlen : length (schedule evs) = 5%nat) by (by rewrite Hs).
  rewrite Hschedule in Hlen.
  destruct (requests_in evs) as [|[|[|[|n]]]];
    [discriminate|discriminate|discriminate|reflexivity|lia].
Defined.

(** C5. When the first attempt of a fetch of a valid forecast type is
    answered with an error status other than 429 (401 included), the fetch
    raises that [ClientResponseError], which carries the status, after this
    one request and without sleeping. *)
Theorem fetch_fails_fast net forecast_type w status :
  valid_forecast_type forecast_type →
  net (sent w) = Raise (ClientResponseError status) → status ≠ 429 →
  ∃ evs,
    async_get_forecast net forecast_type w
    = (Raise (ClientResponseError status), World (S (sent w)) (trace w ++ evs))
    ∧ requests_in evs = 1%nat ∧ sleeps_in evs = [].
Proof.
  intros Hvalid Hnet Hstatus.
  destruct (async_get_forecast_spec net forecast_type w Hvalid)
    as (evs & r & Hrun & Hn & Hearlier & Hsleeps & Hlast).
  assert (requests_in evs = 1%nat) as Hone.
  { destruct (decide (0 < requests_in evs - 1)%nat) as [Hlt|?]; [|lia].
    destruct (Hearlier _ Hlt) as (e & He & Re).
    replace (sent w + 0)%nat with (sent w) in He by lia.
    rewrite Hnet in He. injection He as <-. simpl in Re. lia. }
  rewrite Hone in *. simpl in Hlast.
  replace (sent w + 0)%nat with (sent w) in Hlast by lia.
  rewrite Hnet in Hlast. destruct Hlast as [-> _].
  exists evs. replace (S (sent w)) with (sent w + 1)%nat by lia. auto.
Qed.

Lemma fetch_fails_fast_witness :
  valid_forecast_type "hourly"
  ∧ net_failing (ClientResponseError 401) (sent world0) = Raise (ClientResponseError 401)
  ∧ 401 ≠ 429
  ∧ ∃ evs,
      async_get_forecast (net_failing (ClientResponseError 401)) "hourly" world0
      = (Raise (ClientResponseError 401), World 1 ([] ++ evs))
      ∧ requests_in evs = 1%nat ∧ sleeps_in evs = [].
Proof.
  split; [exact hourly_valid|]. split; [reflexivity|]. split; [discriminate|].
  apply (fetch_fails_fast (net_failing (ClientResponseError 401)) "hourly" world0 401).
  - exact hourly_valid.
  - reflexivity.
  - discriminate.
Defined.

(** C6. A fetch of anything but ["hourly"], ["three_hourly"] or ["daily"]
    raises [ValueError] and leaves the world as it was: no request, no
    sleep, no log record. *)
Theorem fetch_rejects_invalid_type net forecast_type w :
  ¬ valid_forecast_type forecast_type →
  async_get_forecast net forecast_type w = (Raise ValueError, w).
Proof.
  intros Hinvalid. unfold async_get_forecast.
  assert (Hlookup : ENDPOINTS !! forecast_type = None).
  { apply not_elem_of_list_to_map_1. exact Hinvalid. }
  rewrite Hlookup. reflexivity.
Qed.

Lemma fetch_rejects_invalid_type_witness :
  ¬ valid_forecast_type "weekly"
  ∧ async_get_forecast (net_returning []) "weekly" world0 = (Raise ValueError, world0).
Proof.
  split; [exact weekly_invalid|].
  apply (fetch_rejects_invalid_type (net_returning []) "weekly" world0 weekly_invalid).
Defined.

(** C10, at the failing input: the provider answers with the body
    [null], [response.json()] gives [None], and the fetch returns it. *)
Lemma fetch_never_falls_through_counterexample :
  async_get_forecast net_null "hourly" world0 = (Ok JNull, world1).
Proof. reflexivity. Qed.

(** C10, amended. The retry loop never runs to its end, so the
    [return None] after it is never reached: a fetch either raises, or
    returns the parsed body of the answer to one of its at most three
    requests. It returns [None] only as such a body, when the provider
    answered with [null]. *)
Theorem fetch_never_falls_through net forecast_type w :
  (∀ endpoint, (retry_loop net endpoint w).1 ≠ Ok None)
  ∧ ((∃ e, (async_get_forecast net forecast_type w).1 = Raise e)
     ∨ (∃ k body, (k < 3)%nat ∧ net (sent w + k)%nat = Ok body
          ∧ (async_get_forecast net forecast_type w).1 = Ok body))
  ∧ ((async_get_forecast net forecast_type w).1 = Ok JNull →
     ∃ k, (k < 3)%nat ∧ net (sent w + k)%nat = Ok JNull).
Proof.
  split.
  { intros endpoint.
    destruct (retry_loop_spec net endpoint w) as (evs & r & -> & _ & _ & _ & _ & Hlast).
    unfold last_attempt_decides in Hlast. simpl.
    destruct (net _); [by subst r|]. by destruct Hlast as [-> _]. }
  assert (Hcases : (∃ e, (async_get_forecast net forecast_type w).1 = Raise e)
     ∨ (∃ k body, (k < 3)%nat ∧ net (sent w + k)%nat = Ok body
          ∧ (async_get_forecast net forecast_type w).1 = Ok body)).
  { destruct (decide (valid_forecast_type forecast_type)) as [Hvalid|Hinvalid].
    - destruct (async_get_forecast_spec net forecast_type w Hvalid)
        as (evs & r & -> & Hn & _ & _ & Hlast). simpl.
      destruct (net (sent w + (requests_in evs - 1))%nat) as [body|e] eqn:Hnet.
      + subst r. right. exists (requests_in evs - 1)%nat, body. split; [lia|]. auto.
      + destruct Hlast as [-> _]. left. eauto.
    - rewrite (async_get_forecast_invalid _ _ _ Hinvalid). simpl. left. eauto. }
  split; [exact Hcases|].
  intros Hnone. destruct Hcases as [[e He]|(k & body & Hk & Hnet & Hbody)]; [congruence|].
  exists k. split; [done|]. congruence.
Qed.

(** ** The entity: refresh *)

Lemma async_update_fetch_raises net self w e w1 :
  async_get_forecast net "hourly" w = (Raise e, w1) →
  async_update net (self, w)
  = (Ok (), (set_available false self, World (sent w1) (trace w1 ++ [Log ERROR MSG_FETCH]))).
Proof.
  intros Hfetch. unfold async_update. run_entity. by rewrite Hfetch.
Qed.

(** C3. When the client's fetch raises, whatever the error, the refresh
    returns normally, the entity is marked unavailable, and the stored
    response (like every other attribute) is what it was before. *)
Theorem refresh_failure_keeps_response net self w e w1 :
  async_get_forecast net "hourly" w = (Raise e, w1) →
  ∃ self' w',
    async_update net (self, w) = (Ok (), (self', w'))
    ∧ _attr_available self' = false
    ∧ _data self' = _data self
    ∧ self' = set_available false self
    ∧ errors_in (trace w') = errors_in (trace w1) ++ [MSG_FETCH].
Proof.
  intros Hfetch. rewrite (async_update_fetch_raises _ _ _ _ _ Hfetch).
  eexists _, _. split; [reflexivity|]. split_and!; try done.
  simpl. unfold errors_in. by rewrite omap_app.
Qed.

Lemma refresh_failure_keeps_response_witness :
  async_get_forecast (net_failing (ClientResponseError 401)) "hourly" world0
  = (Raise (ClientResponseError 401),
     World 1 [Log DEBUG MSG_REQUEST; Request HOURLY_URL;
              Log ERROR "Invalid API key for Met Office (DataHub)"])
  ∧ ∃ self' w',
      async_update (net_failing (ClientResponseError 401))
        (stored (JObj (response_body example_series)) init, world0)
      = (Ok (), (self', w'))
      ∧ _attr_available self' = false
      ∧ _data self' = JObj (response_body example_series).
Proof.
  split; [reflexivity|].
  destruct (refresh_failure_keeps_response (net_failing (ClientResponseError 401))
              (stored (JObj (response_body example_series)) init) world0
              (ClientResponseError 401) _ eq_refl)
    as (self' & w' & Hrun & Havailable & Hdata & _).
  exists self', w'. split; [exact Hrun|]. split; [exact Havailable|]. exact Hdata.
Defined.

(** C1, at the failing inputs: the provider answers with an object whose
    ["features"] list is empty, and [self._data["features"][0]] raises
    [IndexError], which leaves [async_update]; an empty ["timeSeries"]
    list does the same at [properties["timeSeries"][0]]. *)
Theorem refresh_raises_on_empty_features :
  (async_update (net_returning empty_features) (init, world0)).1 = Raise IndexError
  ∧ (async_update (net_returning (response_body [])) (init, world0)).1 = Raise IndexError.
Proof. split; reflexivity. Qed.

Lemma falsy_or_lacks_None d k :
  dict_lookup k d = None → falsy_or_lacks (JObj d) k = Ok true.
Proof.
  intros H. unfold falsy_or_lacks. destruct d as [|[k' v] d]; [done|]. simpl in *.
  destruct (String.eqb k k'); [done|]. by rewrite H.
Qed.

Lemma falsy_or_lacks_Some d k v :
  dict_lookup k d = Some v → falsy_or_lacks (JObj d) k = Ok false.
Proof.
  intros H. unfold falsy_or_lacks. destruct d as [|[k' v'] d]; [done|]. simpl in *.
  destruct (String.eqb k k'); [done|]. by rewrite H.
Qed.

(** C2, as stated, fails: after a fetch that returns an object without
    ["features"] (here the empty object) the refresh logs the problem and
    returns, but the entity is marked available. *)
Lemma refresh_structural_error_counterexample :
  dict_lookup "features" [] = None
  ∧ ∃ self' w',
      async_update (net_returning []) (init, world0) = (Ok (), (self', w'))
      ∧ errors_in (trace w') = ["Invalid data received from Met Office (DataHub)"]
      ∧ _attr_available self' = true
      ∧ _attr_available self' ≠ false.
Proof.
  split; [reflexivity|]. eexists _, _. split; [reflexivity|]. by split_and!.
Qed.

(** C2, amended. After a fetch that returns an object in which
    ["features"], the first feature's ["properties"] or their
    ["timeSeries"] is absent, the refresh logs the matching error and
    returns normally; the entity holds the new response and is marked
    available. *)
Theorem refresh_structural_error net self w body w1 msg :
  async_get_forecast net "hourly" w = (Ok (JObj body), w1) →
  structural_gap body msg →
  ∃ self' w',
    async_update net (self, w) = (Ok (), (self', w'))
    ∧ self' = stored (JObj body) self
    ∧ _data self' = JObj body
    ∧ _attr_available self' = true
    ∧ w' = World (sent w1) (trace w1 ++ [Log ERROR msg]).
Proof.
  intros Hfetch Hgap. unfold async_update. run_entity. rewrite Hfetch. simpl.
  destruct Hgap as [body Hf|body feature rest Hf Hp|body feature rest properties Hf Hp Ht].
  - rewrite (falsy_or_lacks_None _ _ Hf). simpl. eexists _, _. split; [reflexivity|]. auto.
  - rewrite (falsy_or_lacks_Some _ _ _ Hf). simpl. rewrite Hf. simpl.
    rewrite (falsy_or_lacks_None _ _ Hp). simpl. eexists _, _. split; [reflexivity|]. auto.
  - rewrite (falsy_or_lacks_Some _ _ _ Hf). simpl. rewrite Hf. simpl.
    rewrite (falsy_or_lacks_Some _ _ _ Hp). simpl. rewrite Hp. simpl.
    rewrite (falsy_or_lacks_None _ _ Ht). simpl. eexists _, _. split; [reflexivity|]. auto.
Qed.

Lemma refresh_structural_error_witness :
  async_get_forecast (net_returning [("features", JArr [JObj []])]) "hourly" world0
  = (Ok (JObj [("features", JArr [JObj []])]), world1)
  ∧ structural_gap [("features", JArr [JObj []])]
      "Invalid feature data received from Met Office (DataHub)"
  ∧ ∃ self' w',
      async_update (net_returning [("features", JArr [JObj []])]) (init, world0)
      = (Ok (), (self', w'))
      ∧ self' = stored (JObj [("features", JArr [JObj []])]) init
      ∧ _data self' = JObj [("features", JArr [JObj []])]
      ∧ _attr_available self' = true
      ∧ w' = World (sent world1)
               (trace world1
                ++ [Log ERROR "Invalid feature data received from Met Office (DataHub)"]).
Proof.
  split; [reflexivity|].
  assert (Hgap : structural_gap [("features", JArr [JObj []])]
                   "Invalid feature data received from Met Office (DataHub)").
  { apply (gap_properties _ [] []); reflexivity. }
  split; [exact Hgap|].
  apply (refresh_structural_error (net_returning [("features", JArr [JObj []])])
           init world0 _ world1 _ eq_refl Hgap).
Defined.

(** ** The entity: current conditions *)

Lemma Qred_inject_Z z : Qred (inject_Z z) = inject_Z z.
Proof.
  unfold Qred, inject_Z.
  pose proof (Z.ggcd_gcd z 1) as Hg. pose proof (Z.ggcd_correct_divisors z 1) as Hd.
  destruct (Z.ggcd z 1) as [g [aa bb]]. simpl in *.
  rewrite Z.gcd_1_r in Hg. subst g. destruct Hd as [Ha Hb].
  assert (aa = z) as -> by lia. assert (bb = 1) as -> by lia. reflexivity.
Qed.

Lemma as_int_key_code z : as_int_key (code_json z) = Some z.
Proof. unfold as_int_key, code_json, Zc, Q2Qc. simpl. by rewrite Qred_inject_Z. Qed.

(** An integer code maps to its entry of the table, and to ["unknown"]
    when the table has none. *)
Lemma condition_of_code z :
  condition_of (code_json z) = Ok (default "unknown" (CONDITION_MAP !! z)).
Proof. unfold condition_of. simpl hashable. cbv iota. by rewrite as_int_key_code. Qed.

Lemma update_current_conditions_data current self w r self' w' :
  update_current_conditions current (self, w) = (r, (self', w')) →
  _data self' = _data self.
Proof.
  unfold update_current_conditions. run_entity.
  intros H. repeat (case_match; simplify_eq; simpl in *; try done).
Qed.

(** A refresh whose fetch returned leaves that response stored, whether
    the rest of the refresh returns or raises. *)
Lemma async_update_data net self w data w1 r self' w' :
  async_get_forecast net "hourly" w = (Ok data, w1) →
  async_update net (self, w) = (r, (self', w')) →
  _data self' = data.
Proof.
  intros Hfetch. unfold async_update.
  unfold mbind at 1, M_bind at 1, try_except.
  unfold mbind at 1, M_bind at 1, in_world. rewrite Hfetch.
  run_entity.
  intros H.
  repeat (case_match; simplify_eq; simpl in *; try done).
  by apply update_current_conditions_data in H.
Qed.

Lemma pressure_example : binary64 (Zc 101325 / Zc 100) = Some (Q2Qc 1013.25).
Proof. vm_compute. f_equal. apply Qc_is_canon. reflexivity. Qed.

Lemma truediv_finite q n :
  n ≠ 0 →
  truediv (JNum q) n
  = match binary64 (q / Zc n) with
    | Some r => Ok (JNum r)
    | None => Raise OverflowError
    end.
Proof.
  intros Hn. unfold truediv. cbn [as_number mbind result_bind].
  by destruct (Z.eqb_spec n 0).
Qed.

Lemma update_current_conditions_entry e pressure self w :
  binary64 (mslp e / Zc 100) = Some pressure →
  update_current_conditions (entry_json e) (self, w)
  = (Ok (), (with_current_conditions e pressure self, w)).
Proof.
  intros Hpressure. unfold update_current_conditions.
  change (getitem (entry_json e) "mslp") with (Ok (JNum (mslp e))).
  cbn [mbind result_bind]. rewrite truediv_finite, Hpressure by done.
  change (getitem (entry_json e) "significantWeatherCode")
    with (Ok (code_json (significantWeatherCode e))).
  cbn [mbind result_bind]. rewrite condition_of_code. reflexivity.
Qed.

(** A pressure too large for a float: [mslp / 100] raises
    [OverflowError] when the provider sends an integer that large. *)
Lemma update_current_conditions_overflow e self w :
  binary64 (mslp e / Zc 100) = None →
  (update_current_conditions (entry_json e) (self, w)).1 = Raise OverflowError.
Proof.
  intros Hpressure. unfold update_current_conditions.
  change (getitem (entry_json e) "mslp") with (Ok (JNum (mslp e))).
  cbn [mbind result_bind]. rewrite truediv_finite, Hpressure by done.
  reflexivity.
Qed.

Lemma async_update_first_entry net self w w1 e es :
  async_get_forecast net "hourly" w = (Ok (JObj (response_body (e :: es))), w1) →
  async_update net (self, w)
  = update_current_conditions (entry_json e)
      (stored (JObj (response_body (e :: es))) self, w1).
Proof.
  intros Hfetch. unfold async_update.
  unfold mbind at 1, M_bind at 1, try_except.
  unfold mbind at 1, M_bind at 1, in_world. rewrite Hfetch.
  run_entity. reflexivity.
Qed.

Lemma async_update_well_formed net self w w1 e es pressure :
  async_get_forecast net "hourly" w = (Ok (JObj (response_body (e :: es))), w1) →
  binary64 (mslp e / Zc 100) = Some pressure →
  async_update net (self, w)
  = (Ok (),
     (with_current_conditions e pressure (stored (JObj (response_body (e :: es))) self), w1)).
Proof.
  intros Hfetch Hpressure. rewrite (async_update_first_entry _ _ _ _ _ _ Hfetch).
  by apply update_current_conditions_entry.
Qed.

(** A refresh whose fetch returned a falsy value (the body [null], an
    empty object or array, zero, an empty string, [false]) stores it, logs
    the error and assigns nothing else. *)
Lemma async_update_falsy net self w data w1 :
  async_get_forecast net "hourly" w = (Ok data, w1) →
  truthy data = false →
  async_update net (self, w)
  = (Ok (), (stored data self,
             World (sent w1)
               (trace w1 ++ [Log ERROR "Invalid data received from Met Office (DataHub)"]))).
Proof.
  intros Hfetch Hfalsy. unfold async_update.
  unfold mbind at 1, M_bind at 1, try_except.
  unfold mbind at 1, M_bind at 1, in_world. rewrite Hfetch.
  run_entity. unfold falsy_or_lacks. rewrite Hfalsy. reflexivity.
Qed.

(** C9, at the failing input: a refresh that fetched a well-formed
    response is followed by one whose answer has the body [null]. The
    entity then stores [None], and its current conditions are still those
    of the first refresh: nothing clears them. *)
Lemma current_conditions_from_first_entry_counterexample :
  ∃ self1 self2 w2,
    async_update (net_returning (response_body example_series)) (init, world0)
    = (Ok (), (self1, world1))
    ∧ async_update net_null (self1, world1) = (Ok (), (self2, w2))
    ∧ reachable self2
    ∧ _data self2 = JNull
    ∧ _attr_native_temperature self2 = JNum (Zc 10)
    ∧ _attr_condition self2 = Some "partlycloudy"
    ∧ ¬ no_current_conditions self2.
Proof.
  pose proof (async_update_well_formed (net_returning (response_body example_series))
                init world0 world1 example_first example_rest _ eq_refl pressure_example)
    as Hrun1.
  set (self1 := with_current_conditions example_first (Q2Qc 1013.25)
                  (stored (JObj (response_body (example_first :: example_rest))) init))
    in Hrun1.
  pose proof (async_update_falsy net_null self1 world1 JNull _ eq_refl eq_refl) as Hrun2.
  exists self1, (stored JNull self1). eexists.
  split; [exact Hrun1|]. split; [exact Hrun2|].
  split.
  { eapply reachable_update; [|exact Hrun2].
    eapply reachable_update; [|exact Hrun1]. constructor. }
  split_and!; try reflexivity.
  intros (_ & _ & _ & _ & _ & _ & _ & _ & _ & Hcondition). discriminate.
Qed.

(** C9, amended. After a refresh that fetched a response with time
    series [e :: es], the current conditions are those of the first entry
    [e]: each attribute is the entry's value, the pressure is the float
    nearest to [mslp / 100] (101325 Pa gives 1013.25 hPa exactly) and the
    condition is the table's entry for the entry's code, ["unknown"] when
    the table has none; an integer [mslp] so large that the quotient is
    beyond the floats makes the refresh raise [OverflowError]. Code 0 maps
    to ["clear-night"]; a code absent from the table (99 is) maps to
    ["unknown"] and raises nothing. At construction every current-condition
    attribute is [None]; a refresh whose fetch raises, or returns a falsy
    value such as [None], assigns none of them, so conditions assigned by
    an earlier refresh stay in place. *)
Theorem current_conditions_from_first_entry net self w w1 e es :
  async_get_forecast net "hourly" w = (Ok (JObj (response_body (e :: es))), w1) →
  match binary64 (mslp e / Zc 100) with
  | Some pressure =>
      ∃ self',
        async_update net (self, w) = (Ok (), (self', w1))
        ∧ _data self' = JObj (response_body (e :: es))
        ∧ _attr_native_temperature self' = JNum (screenTemperature e)
        ∧ _attr_native_apparent_temperature self' = JNum (feelsLikeTemperature e)
        ∧ _attr_native_dew_point self' = JNum (screenDewPointTemperature e)
        ∧ _attr_humidity self' = JNum (screenRelativeHumidity e)
        ∧ _attr_native_pressure self' = JNum pressure
        ∧ _attr_native_visibility self' = JNum (visibility e)
        ∧ _attr_native_wind_speed self' = JNum (windSpeed10m e)
        ∧ _attr_wind_bearing self' = JNum (windDirectionFrom10m e)
        ∧ _attr_uv_index self' = JNum (uvIndex e)
        ∧ _attr_condition self'
          = Some (default "unknown" (CONDITION_MAP !! significantWeatherCode e))
  | None => (async_update net (self, w)).1 = Raise OverflowError
  end
  ∧ binary64 (Zc 101325 / Zc 100) = Some (Q2Qc 1013.25)
  ∧ condition_of (code_json 0) = Ok "clear-night"
  ∧ (∀ code, CONDITION_MAP !! code = None → condition_of (code_json code) = Ok "unknown")
  ∧ CONDITION_MAP !! 99 = None
  ∧ no_current_conditions init
  ∧ (∀ net' w' e' w1',
       async_get_forecast net' "hourly" w' = (Raise e', w1') →
       ∃ w2, async_update net' (self, w') = (Ok (), (set_available false self, w2)))
  ∧ (∀ net' w' data w1',
       async_get_forecast net' "hourly" w' = (Ok data, w1') → truthy data = false →
       ∃ w2, async_update net' (self, w') = (Ok (), (stored data self, w2))).
Proof.
  intros Hfetch. split_and!.
  - destruct (binary64 (mslp e / Zc 100)) as [pressure|] eqn:Hpressure.
    + eexists. split; [by apply async_update_well_formed|]. by repeat split.
    + rewrite (async_update_first_entry _ _ _ _ _ _ Hfetch).
      by apply update_current_conditions_overflow.
  - exact pressure_example.
  - by rewrite condition_of_code.
  - intros code Hcode. by rewrite condition_of_code, Hcode.
  - reflexivity.
  - by repeat split.
  - intros net' w' e' w1' Hraise. eexists. exact (async_update_fetch_raises _ _ _ _ _ Hraise).
  - intros net' w' data w1' Hdata Hfalsy. eexists. by apply async_update_falsy.
Qed.

Lemma current_conditions_from_first_entry_witness :
  async_get_forecast (net_returning (response_body example_series)) "hourly" world0
  = (Ok (JObj (response_body (example_first :: example_rest))), world1)
  ∧ mslp example_first = Zc 101325
  ∧ ∃ self',
      async_update (net_returning (response_body example_series)) (init, world0)
      = (Ok (), (self', world1))
      ∧ _attr_native_temperature self' = JNum (Zc 10)
      ∧ _attr_native_pressure self' = JNum (Q2Qc 1013.25)
      ∧ _attr_condition self' = Some "partlycloudy".
Proof.
  split; [reflexivity|]. split; [reflexivity|].
  pose proof (current_conditions_from_first_entry
                (net_returning (response_body example_series)) init world0 world1
                example_first example_rest eq_refl) as [Hrefresh _].
  change (mslp example_first) with (Zc 101325) in Hrefresh.
  rewrite pressure_example in Hrefresh.
  destruct Hrefresh
    as (self' & Hrun & _ & Htemp & _ & _ & _ & Hpressure & _ & _ & _ & _ & Hcond).
  exists self'. split; [exact Hrun|]. split; [exact Htemp|].
  split; [exact Hpressure|]. exact Hcond.
Defined.

(** ** Reducers on numbers *)












(** ** The most frequent code *)









(** ** One day's forecast from a run of well-formed entries *)










(** ** Grouping the time series into days *)

Section grouping.

Context {datetime date : Type} `{EqDecision date}.
Variable parse_datetime : string → result (option datetime).
Variable date_of : datetime → date.
Variable set_iter : list json → list json.
Variable adder : summation.

#[local] Abbreviation parser_answers := (parser_answers parse_datetime).
#[local] Abbreviation day_of := (day_of parse_datetime date_of).
#[local] Abbreviation readable := (readable parse_datetime date_of).
#[local] Abbreviation is_day_run := (is_day_run parse_datetime date_of).
#[local] Abbreviation boundaries := (boundaries parse_datetime date_of).
#[local] Abbreviation date_changes := (date_changes parse_datetime date_of).
#[local] Abbreviation reduces_to := (reduces_to set_iter adder).
#[local] Abbreviation raises_on_run := (raises_on_run parse_datetime date_of set_iter adder).
#[local] Abbreviation loop_inv := (loop_inv parse_datetime date_of set_iter adder).
#[local] Abbreviation group_entry := (group_entry parse_datetime date_of set_iter adder).
#[local] Abbreviation group_entries :=
  (group_entries parse_datetime date_of set_iter adder).
#[local] Abbreviation flush := (flush set_iter adder).
#[local] Abbreviation async_forecast_daily :=
  (async_forecast_daily parse_datetime date_of set_iter adder).

Lemma date_changes_snoc l a e :
  last l = Some a →
  date_changes (l ++ [e])
  = (date_changes l + if decide (day_of a = day_of e) then 0 else 1)%nat.
Proof.
  induction l as [|x l IH]; [done|]. intros Hlast.
  destruct l as [|y l].
  - simpl in *. injection Hlast as ->. lia.
  - change (last (x :: y :: l)) with (last (y :: l)) in Hlast.
    specialize (IH Hlast).
    change (date_changes ((x :: y :: l) ++ [e]))
      with ((if decide (day_of x = day_of y) then 0 else 1)
            + date_changes ((y :: l) ++ [e]))%nat.
    rewrite IH. simpl. lia.
Qed.

Lemma entry_timestamp e :
  getitem (entry_json e) "time" ≫= dt_parse_datetime parse_datetime
  = parse_datetime (time e).
Proof. reflexivity. Qed.

Lemma boundaries_snoc closed cur d :
  boundaries closed →
  (∀ e, e ∈ cur → day_of e = Some d) →
  (∀ gl b, last closed = Some gl → b ∈ gl → day_of b ≠ Some d) →
  boundaries (closed ++ [cur]).
Proof.
  intros Hb Hcur Hlast i g1 g2 a b H1 H2 Ha Hb'.
  destruct (decide (S i < length closed)%nat) as [Hlt|Hge].
  - rewrite lookup_app_l in H1 by lia. rewrite lookup_app_l in H2 by lia.
    exact (Hb i g1 g2 a b H1 H2 Ha Hb').
  - assert (S i = length closed) as Hi.
    { apply lookup_lt_Some in H2. rewrite length_app in H2. simpl in H2. lia. }
    rewrite lookup_app_l in H1 by lia.
    rewrite Hi, lookup_app_r, Nat.sub_diag in H2 by lia. injection H2 as <-.
    rewrite (Hcur b Hb'). eapply Hlast; [|done].
    rewrite last_lookup. rewrite <- Hi. simpl. done.
Qed.

Lemma last_of_nonempty {A} (l : list A) : l ≠ [] → ∃ a, last l = Some a ∧ a ∈ l.
Proof.
  intros Hne. destruct (last l) as [a|] eqn:Hlast.
  - exists a. split; [done|]. rewrite last_lookup in Hlast. by eapply list_elem_of_lookup_2.
  - by apply last_None in Hlast.
Qed.

Lemma loop_inv_start : loop_inv [] (mkGrouping [] None []).
Proof. exists [], []. simpl. split_and!; done. Qed.

Lemma group_entries_app l1 l2 : ∀ g,
  group_entries g (l1 ++ l2) = group_entries g l1 ≫= λ g', group_entries g' l2.
Proof.
  induction l1 as [|entry l1 IH]; intros g; [done|].
  cbn [app MetOfficeDataHubWeather.group_entries].
  destruct (group_entry g entry) as [g'|e]; [|done].
  cbn [mbind result_bind]. apply IH.
Qed.

Lemma async_forecast_daily_series self time_series :
  _data self = JObj (response_with time_series) →
  async_forecast_daily self
  = (g ← group_entries (mkGrouping [] None []) time_series;
     Some <$> flush (daily_forecasts g) (daily_data g)).
Proof.
  intros Hdata. unfold MetOfficeDataHubWeather.async_forecast_daily.
  rewrite Hdata. reflexivity.
Qed.

(** An entry whose timestamp does not parse changes nothing. *)
Lemma group_entry_skip g e :
  parse_datetime (time e) = Ok None → group_entry g (entry_json e) = Ok g.
Proof.
  intros Hparse. unfold MetOfficeDataHubWeather.group_entry.
  rewrite entry_timestamp, Hparse. reflexivity.
Qed.

(** An entry on whose timestamp the parser raises ends the loop. *)
Lemma group_entry_raise g e err :
  parse_datetime (time e) = Raise err → group_entry g (entry_json e) = Raise err.
Proof.
  intros Hparse. unfold MetOfficeDataHubWeather.group_entry.
  rewrite entry_timestamp, Hparse. reflexivity.
Qed.

(** The open group, when the arithmetic of its forecast raises. *)
Lemma open_group_raises closed cur d err :
  cur ≠ [] → (∀ e, e ∈ cur → day_of e = Some d) →
  _create_daily_forecast set_iter adder (entry_json <$> cur) = Raise err →
  ∀ post, raises_on_run ((concat closed ++ cur) ++ post) err.
Proof.
  intros Hne Hsame Hraise post. exists (concat closed), cur, post.
  split; [by rewrite <- (assoc_L (++))|]. split; [|done]. split; [done|]. eauto.
Qed.

(** An entry of day [d] opens the first group, joins the open group of
    day [d], or closes the open group of another day and opens a new one;
    closing a group makes its forecast, or raises what making it raises. *)
Lemma group_entry_keep kept g e d :
  day_of e = Some d →
  loop_inv kept g →
  (∃ g', group_entry g (entry_json e) = Ok g' ∧ loop_inv (kept ++ [e]) g')
  ∨ (∃ err, group_entry g (entry_json e) = Raise err
            ∧ ∀ post, raises_on_run (kept ++ post) err).
Proof.
  intros Hday (closed & cur & Hfs & Hdata & Hkept & Hruns & Hbound & Hlen & Hcur).
  unfold MetOfficeDataHubWeather.group_entry. rewrite entry_timestamp.
  pose proof Hday as Hday_e. unfold day_of in Hday.
  destruct (parse_datetime (time e)) as [[timestamp|]|] eqn:Hparse; [|done|done].
  injection Hday as Hday. cbn [mbind result_bind]. rewrite Hday.
  destruct (current_day g) as [current|] eqn:Hcurrent.
  - destruct Hcur as (Hne & Hsame & Hprev).
    destruct (last_of_nonempty cur Hne) as (a & Hlast & Ha).
    assert (Hlast_kept : last kept = Some a).
    { rewrite Hkept, last_app, Hlast. done. }
    case_decide as Hchange.
    + (* a new day: the open group is reduced and closed *)
      unfold MetOfficeDataHubWeather.flush. rewrite Hdata.
      destruct cur as [|c0 cur'] eqn:Ecur; [done|]. rewrite fmap_cons. rewrite <- fmap_cons.
      destruct (_create_daily_forecast set_iter adder (entry_json <$> c0 :: cur'))
        as [f|err] eqn:Hf; cbn [mbind result_bind].
      * left. eexists. split; [reflexivity|].
        exists (closed ++ [c0 :: cur']), [e]. cbn [daily_forecasts daily_data current_day].
        split_and!.
        -- apply Forall2_app; [done|]. by constructor.
        -- done.
        -- rewrite concat_app, Hkept. simpl. by rewrite app_nil_r.
        -- apply Forall_app. split; [done|]. constructor; [|done]. split; [done|]. eauto.
        -- by apply boundaries_snoc with current.
        -- rewrite (date_changes_snoc kept a e Hlast_kept), length_app, Hlen.
           rewrite (Hsame a Ha), Hday_e. case_decide; [congruence|]. simpl. lia.
        -- done.
        -- intros e' ->%list_elem_of_singleton. done.
        -- intros gl b. rewrite last_snoc. intros [= <-] Hb. rewrite (Hsame b Hb). congruence.
      * right. exists err. split; [done|]. rewrite Hkept.
        by apply open_group_raises with current.
    + (* the same day: the entry joins the open group *)
      assert (d = current) as -> by (destruct (decide (d = current)); [done|by destruct Hchange]).
      cbn [mbind result_bind].
      left. eexists. split; [reflexivity|].
      exists closed, (cur ++ [e]). cbn [daily_forecasts daily_data current_day].
      rewrite Hcurrent. split_and!.
      * done.
      * by rewrite Hdata, fmap_app.
      * by rewrite Hkept, (assoc_L (++)).
      * done.
      * done.
      * rewrite (date_changes_snoc kept a e Hlast_kept), Hlen.
        rewrite (Hsame a Ha), Hday_e. case_decide; [lia|done].
      * by destruct cur.
      * intros e' [He'| ->%list_elem_of_singleton]%elem_of_app; [by apply Hsame|done].
      * done.
  - (* the first readable entry *)
    destruct Hcur as [-> ->]. cbn [mbind result_bind].
    left. eexists. split; [reflexivity|].
    exists [], [e]. cbn [daily_forecasts daily_data current_day].
    simpl in Hkept. subst kept. simpl in Hdata.
    split_and!; try done.
    + by rewrite Hdata.
    + intros e' ->%list_elem_of_singleton. done.
Qed.

Lemma group_entries_inv es : ∀ kept g,
  Forall parser_answers es →
  loop_inv kept g →
  (∃ g', group_entries g (entry_json <$> es) = Ok g'
         ∧ loop_inv (kept ++ filter readable es) g')
  ∨ (∃ err, group_entries g (entry_json <$> es) = Raise err
            ∧ ∀ post, raises_on_run ((kept ++ filter readable es) ++ post) err).
Proof.
  induction es as [|e es IH]; intros kept g Hanswers Hinv.
  - left. exists g. split; [done|]. by rewrite filter_nil, app_nil_r.
  - apply Forall_cons in Hanswers as [[answer Hanswer] Hanswers].
    rewrite fmap_cons, filter_cons. cbn [MetOfficeDataHubWeather.group_entries].
    destruct (decide (readable e)) as [[d Hday]|Hnot].
    + destruct (group_entry_keep kept g e d Hday Hinv)
        as [(g1 & -> & Hinv1)|(err & -> & Hraises)]; cbn [mbind result_bind].
      * destruct (IH _ _ Hanswers Hinv1) as [(g' & Hrun & Hinv')|(err & Hrun & Hraises)].
        -- left. exists g'. split; [done|]. by rewrite cons_middle, (assoc_L (++)).
        -- right. exists err. split; [done|]. intros post.
           rewrite cons_middle, (assoc_L (++) kept). apply Hraises.
      * right. exists err. split; [done|]. intros post.
        rewrite <- (assoc_L (++)). apply Hraises.
    + assert (Hparse : parse_datetime (time e) = Ok None).
      { destruct answer as [timestamp|]; [|done]. destruct Hnot.
        exists (date_of timestamp). unfold day_of.
        by rewrite Hanswer. }
      rewrite (group_entry_skip g e Hparse). cbn [mbind result_bind].
      by apply IH.
Qed.

(** C7, at the failing input: the second entry's timestamp is formed
    like a timestamp and names the 30th of February. The parser raises
    [ValueError] on it, nothing catches that, and the daily forecast
    raises; the entry is not skipped, which would give the forecast of the
    first entry alone. *)
Lemma daily_forecast_partitions_counterexample :
  iso_parse "2024-02-30T00:00Z" = Raise ValueError
  ∧ MetOfficeDataHubWeather.async_forecast_daily iso_parse iso_date small_int_set
      exact_adder
      (stored (JObj (response_body [example_first; invalid_date_entry])) init)
    = Raise ValueError
  ∧ ∃ forecast,
      MetOfficeDataHubWeather.async_forecast_daily iso_parse iso_date small_int_set
        exact_adder (stored (JObj (response_body [example_first])) init)
      = Ok (Some [forecast]).
Proof. split; [reflexivity|]. split; [reflexivity|]. eexists. vm_compute. reflexivity. Qed.

(** C7, amended. For a stored response with time series [es] on whose
    timestamps the parser does not raise, the daily forecast is the list of
    the forecasts of the groups of a partition of [es] without the entries
    whose timestamp the parser answers [None] for: the groups, in order,
    concatenate to the readable entries in their original order; each
    group is non-empty and of one calendar date; neighbouring groups are of
    different dates. A group ends exactly where the date changes from one
    readable entry to the next, so there is one forecast more than there
    are such changes, and a date that comes back after another date gets a
    forecast of its own. The one other outcome is the error that the
    arithmetic of a forecast raises on a run of consecutive readable
    entries of one date. When the parser raises on the timestamp of an
    entry, the entry is not skipped: the daily forecast raises. *)
Theorem daily_forecast_partitions self es :
  _data self = JObj (response_body es) →
  (Forall parser_answers es →
   (∃ groups forecasts,
      async_forecast_daily self = Ok (Some forecasts)
      ∧ concat groups = filter readable es
      ∧ Forall is_day_run groups
      ∧ boundaries groups
      ∧ Forall2 reduces_to groups forecasts
      ∧ length forecasts
        = match filter readable es with
          | [] => 0%nat
          | kept => S (date_changes kept)
          end)
   ∨ (∃ err, async_forecast_daily self = Raise err
             ∧ raises_on_run (filter readable es) err))
  ∧ (∀ pre e post err,
       es = pre ++ e :: post →
       Forall parser_answers pre →
       parse_datetime (time e) = Raise err →
       ∃ err', async_forecast_daily self = Raise err').
Proof.
  intros Hdata.
  change (response_body es) with (response_with (entry_json <$> es)) in Hdata.
  rewrite (async_forecast_daily_series _ _ Hdata). split.
  - intros Hanswers.
    destruct (group_entries_inv es [] _ Hanswers loop_inv_start)
      as [(g & -> & Hinv)|(err & -> & Hraises)]; cbn [mbind result_bind]; cycle 1.
    { right. exists err. split; [done|]. specialize (Hraises []).
      by rewrite app_nil_r, app_nil_l in Hraises. }
    rewrite app_nil_l in Hinv.
    destruct Hinv as (closed & cur & Hfs & Hcur_data & Hkept & Hruns & Hbound & Hlen & Hcur).
    destruct (current_day g) as [d|].
    + destruct Hcur as (Hne & Hsame & Hprev).
      unfold MetOfficeDataHubWeather.flush. rewrite Hcur_data.
      destruct cur as [|c0 cur'] eqn:Ecur; [done|]. rewrite fmap_cons, <- fmap_cons.
      destruct (_create_daily_forecast set_iter adder (entry_json <$> c0 :: cur'))
        as [f|err] eqn:Hf; cbn [mbind result_bind fmap result_fmap].
      * left. exists (closed ++ [c0 :: cur']), (daily_forecasts g ++ [f]).
        split_and!.
        -- done.
        -- rewrite concat_app, Hkept. simpl. by rewrite app_nil_r.
        -- apply Forall_app. split; [done|]. constructor; [|done]. split; [done|]. eauto.
        -- by apply boundaries_snoc with d.
        -- apply Forall2_app; [done|]. by constructor.
        -- rewrite length_app, <- (Forall2_length _ _ _ Hfs), Hlen. cbn [length].
           destruct (filter readable es) eqn:E; [by destruct (concat closed)|]. lia.
      * right. exists err. split; [done|]. rewrite Hkept.
        pose proof (open_group_raises closed (c0 :: cur') d err Hne Hsame Hf []) as Hraises.
        by rewrite app_nil_r in Hraises.
    + destruct Hcur as [-> ->]. simpl in Hkept, Hcur_data.
      unfold MetOfficeDataHubWeather.flush. rewrite Hcur_data. cbn [fmap result_fmap].
      left. exists [], (daily_forecasts g). rewrite Hkept.
      apply Forall2_nil_inv_l in Hfs. rewrite Hfs. split_and!; done.
  - intros pre e post err -> Hanswers Hparse.
    rewrite fmap_app, fmap_cons, group_entries_app.
    destruct (group_entries_inv pre [] _ Hanswers loop_inv_start)
      as [(g & -> & _)|(err' & -> & _)]; cbn [mbind result_bind]; [|by exists err'].
    cbn [MetOfficeDataHubWeather.group_entries].
    rewrite (group_entry_raise g e err Hparse). by exists err.
Qed.

End grouping.

Lemma daily_forecast_partitions_witness :
  _data (stored (JObj (response_body example_series)) init)
    = JObj (response_body example_series)
  ∧ Forall (parser_answers iso_parse) example_series
  ∧ ∃ groups forecasts,
      async_forecast_daily iso_parse iso_date small_int_set exact_adder
        (stored (JObj (response_body example_series)) init)
      = Ok (Some forecasts)
      ∧ concat groups = filter (readable iso_parse iso_date) example_series
      ∧ length (filter (readable iso_parse iso_date) example_series) = 4%nat
      ∧ ATTR_FORECAST_TIME <$> forecasts
        = [JStr "2024-05-01T22:00Z"; JStr "2024-05-02T00:00Z"; JStr "2024-05-01T00:00Z"]
      ∧ length forecasts = 3%nat.
Proof.
  assert (Hanswers : Forall (parser_answers iso_parse) example_series).
  { repeat constructor; eexists; reflexivity. }
  split; [reflexivity|]. split; [exact Hanswers|].
  assert (Hrun : async_forecast_daily iso_parse iso_date small_int_set exact_adder
                   (stored (JObj (response_body example_series)) init)
                 = Ok (Some
                     [ mkForecast (JStr "2024-05-01T22:00Z") (JNum (Zc 12)) (JNum (Zc 10))
                         "sunny" (JNum (Zc 1)) (JNum (Zc 40)) (JNum (Zc 3)) (JNum (Zc 135));
                       mkForecast (JStr "2024-05-02T00:00Z") (JNum (Zc 5)) (JNum (Zc 5))
                         "cloudy" (JNum (Q2Qc 0.5)) (JNum (Zc 40)) (JNum (Zc 3)) (JNum (Zc 270));
                       mkForecast (JStr "2024-05-01T00:00Z") (JNum (Zc 6)) (JNum (Zc 6))
                         "cloudy" (JNum (Q2Qc 0.5)) (JNum (Zc 40)) (JNum (Zc 3)) (JNum (Zc 10)) ])).
  { vm_compute. repeat (f_equal; try (apply Qc_is_canon; reflexivity)). }
  destruct (daily_forecast_partitions iso_parse iso_date small_int_set exact_adder
              (stored (JObj (response_body example_series)) init) example_series eq_refl)
    as [Hpartition _].
  destruct (Hpartition Hanswers)
    as [(groups & forecasts & Hrun' & Hconcat & _ & _ & _ & Hlen)|(err & Hraise & _)].
  - exists groups, forecasts.
    split; [exact Hrun'|]. split; [exact Hconcat|]. split; [reflexivity|].
    split; [|exact Hlen].
    rewrite Hrun in Hrun'. injection Hrun' as <-. reflexivity.
  - rewrite Hrun in Hraise. discriminate.
Defined.

(** * Further properties *)

(** ** The refresh, whatever the response *)

Lemma update_current_conditions_available current self w r self' w' :
  update_current_conditions current (self, w) = (r, (self', w')) →
  _attr_available self' = _attr_available self.
Proof.
  unfold update_current_conditions. run_entity.
  intros H. repeat (case_match; simplify_eq; simpl in *; try done).
Qed.

Lemma async_update_available net self w data w1 r self' w' :
  async_get_forecast net "hourly" w = (Ok data, w1) →
  async_update net (self, w) = (r, (self', w')) →
  _attr_available self' = true.
Proof.
  intros Hfetch. unfold async_update.
  unfold mbind at 1, M_bind at 1, try_except.
  unfold mbind at 1, M_bind at 1, in_world. rewrite Hfetch.
  run_entity.
  intros H.
  repeat (case_match; simplify_eq; simpl in *; try done).
  by apply update_current_conditions_available in H.
Qed.

(** X1. After a refresh the entity is available exactly when the fetch
    returned, and then it stores what the fetch returned; this holds for
    a response of any shape, also when the refresh itself raises. When
    the fetch raised, the stored response is the one from before. *)
Theorem refresh_availability net self w :
  _attr_available (async_update net (self, w)).2.1
  = match (async_get_forecast net "hourly" w).1 with Ok _ => true | Raise _ => false end
  ∧ _data (async_update net (self, w)).2.1
    = match (async_get_forecast net "hourly" w).1 with
      | Ok data => data
      | Raise _ => _data self
      end.
Proof.
  destruct (async_get_forecast net "hourly" w) as [[data|e] w1] eqn:Hfetch; simpl.
  - destruct (async_update net (self, w)) as [r [self' w']] eqn:Hrun. simpl.
    split.
    + exact (async_update_available _ _ _ _ _ _ _ _ Hfetch Hrun).
    + exact (async_update_data _ _ _ _ _ _ _ _ Hfetch Hrun).
  - by rewrite (async_update_fetch_raises _ _ _ _ _ Hfetch).
Qed.

(** With a first entry that is not falsy, the refresh gets as far as the
    assignments of the current conditions. *)
Lemma async_update_on_series net self w w1 current rest :
  async_get_forecast net "hourly" w
  = (Ok (JObj (response_with (current :: rest))), w1) →
  truthy current = true →
  async_update net (self, w)
  = update_current_conditions current
      (stored (JObj (response_with (current :: rest))) self, w1).
Proof.
  intros Hfetch Htruthy. unfold async_update.
  unfold mbind at 1, M_bind at 1, try_except.
  unfold mbind at 1, M_bind at 1, in_world. rewrite Hfetch.
  run_entity. by rewrite Htruthy.
Qed.

(** X2. When the first entry of the fetched time series lacks one of the
    ten attributes the refresh reads, the refresh raises: [KeyError] at
    the missing key, or at an earlier value [TypeError] (a pressure that
    is no number, a code that cannot be hashed) or [OverflowError] (a
    pressure that is an integer too large for a float). It never returns
    normally. *)
Theorem refresh_missing_attribute net self w w1 d rest k :
  async_get_forecast net "hourly" w
  = (Ok (JObj (response_with (JObj d :: rest))), w1) →
  d ≠ [] →
  k ∈ CURRENT_KEYS →
  dict_lookup k d = None →
  (async_update net (self, w)).1 = Raise KeyError
  ∨ (async_update net (self, w)).1 = Raise TypeError
  ∨ (async_update net (self, w)).1 = Raise OverflowError.
Proof.
  intros Hfetch Hne Hk Hmissing.
  rewrite (async_update_on_series _ _ _ _ _ _ Hfetch) by (by destruct d).
  unfold update_current_conditions, truediv, condition_of, as_number. run_entity.
  unfold CURRENT_KEYS in Hk. rewrite !elem_of_cons, elem_of_nil in Hk.
  repeat (case_match; simplify_eq; simpl in *; auto).
  all: try (destruct Hk as [->|[->|[->|[->|[->|[->|[->|[->|[->|[->|[]]]]]]]]]]]; congruence).
  all: simplify_eq; auto.
Qed.

Lemma refresh_missing_attribute_witness :
  async_get_forecast (net_returning (response_with [JObj partial_entry])) "hourly" world0
  = (Ok (JObj (response_with [JObj partial_entry])), world1)
  ∧ partial_entry ≠ []
  ∧ "uvIndex" ∈ CURRENT_KEYS
  ∧ dict_lookup "uvIndex" partial_entry = None
  ∧ ((async_update (net_returning (response_with [JObj partial_entry])) (init, world0)).1
     = Raise KeyError
     ∨ (async_update (net_returning (response_with [JObj partial_entry])) (init, world0)).1
       = Raise TypeError
     ∨ (async_update (net_returning (response_with [JObj partial_entry])) (init, world0)).1
       = Raise OverflowError).
Proof.
  assert (Hk : "uvIndex" ∈ CURRENT_KEYS).
  { unfold CURRENT_KEYS. set_solver. }
  split; [reflexivity|]. split; [discriminate|]. split; [exact Hk|]. split; [reflexivity|].
  apply (refresh_missing_attribute (net_returning (response_with [JObj partial_entry]))
           init world0 world1 partial_entry [] "uvIndex" eq_refl); [discriminate|exact Hk|reflexivity].
Defined.

(** X3. The refresh assigns the current conditions one by one and stops at
    the first lookup that fails: when the first entry has a screen
    temperature but no feels-like temperature, the refresh raises
    [KeyError] with the new temperature (and the new response, and the
    available flag) already in place and every later attribute still at
    its previous value. *)
Theorem refresh_partial_update net self w w1 d rest t :
  async_get_forecast net "hourly" w
  = (Ok (JObj (response_with (JObj d :: rest))), w1) →
  dict_lookup "screenTemperature" d = Some t →
  dict_lookup "feelsLikeTemperature" d = None →
  ∃ self',
    async_update net (self, w) = (Raise KeyError, (self', w1))
    ∧ self' = set_native_temperature t (stored (JObj (response_with (JObj d :: rest))) self)
    ∧ _attr_native_temperature self' = t
    ∧ _attr_available self' = true
    ∧ _attr_native_apparent_temperature self' = _attr_native_apparent_temperature self
    ∧ _attr_native_pressure self' = _attr_native_pressure self
    ∧ _attr_condition self' = _attr_condition self.
Proof.
  intros Hfetch Htemp Hfeels.
  rewrite (async_update_on_series _ _ _ _ _ _ Hfetch) by (by destruct d).
  unfold update_current_conditions. run_entity. rewrite Htemp, Hfeels. simpl.
  eexists. split; [reflexivity|]. by split_and!.
Qed.

Lemma refresh_partial_update_witness :
  async_get_forecast (net_returning (response_with [JObj partial_entry])) "hourly" world0
  = (Ok (JObj (response_with [JObj partial_entry])), world1)
  ∧ dict_lookup "screenTemperature" partial_entry = Some (JNum (Zc 10))
  ∧ dict_lookup "feelsLikeTemperature" partial_entry = None
  ∧ ∃ self',
      async_update (net_returning (response_with [JObj partial_entry])) (init, world0)
      = (Raise KeyError, (self', world1))
      ∧ _attr_native_temperature self' = JNum (Zc 10)
      ∧ _attr_native_apparent_temperature self' = JNull.
Proof.
  split; [reflexivity|]. split; [reflexivity|]. split; [reflexivity|].
  destruct (refresh_partial_update (net_returning (response_with [JObj partial_entry]))
              init world0 world1 partial_entry [] (JNum (Zc 10)) eq_refl eq_refl eq_refl)
    as (self' & Hrun & _ & Htemp & _ & Hfeels & _).
  exists self'. split; [exact Hrun|]. split; [exact Htemp|exact Hfeels].
Defined.

(** ** The condition table *)

Lemma CONDITION_MAP_names code name :
  CONDITION_MAP !! code = Some name → name ∈ CONDITIONS.
Proof.
  with_strategy transparent [CONDITION_MAP] unfold CONDITION_MAP.
  intros Hlookup%elem_of_list_to_map_2.
  unfold CONDITIONS. repeat (apply elem_of_cons in Hlookup as [[= -> ->]|Hlookup]; [set_solver|]).
  by apply elem_of_nil in Hlookup.
Qed.

Lemma condition_is_canonical_aux code :
  match condition_of code with
  | Ok name => name ∈ CONDITIONS ∧ hashable code = true
  | Raise e => e = TypeError ∧ hashable code = false
  end.
Proof.
  unfold condition_of. destruct (hashable code); [|done]. split; [|done].
  destruct (as_int_key code) as [k|]; simpl; [|set_solver].
  destruct (CONDITION_MAP !! k) as [name|] eqn:Hlookup; simpl; [|set_solver].
  by eapply CONDITION_MAP_names.
Qed.

(** X4. [CONDITION_MAP.get(code, "unknown")] gives one of the eleven
    condition names for every hashable code (a number, a boolean, a
    string, [None]), and raises [TypeError] for an array or an object. *)
Theorem condition_is_canonical code :
  match condition_of code with
  | Ok name => name ∈ CONDITIONS ∧ hashable code = true
  | Raise e => e = TypeError ∧ hashable code = false
  end.
Proof. apply condition_is_canonical_aux. Qed.

(** ** The hourly forecast *)

Lemma mapM_entries {B} (f : json → result B) (g : TimeSeriesEntry → B) :
  (∀ e, f (entry_json e) = Ok (g e)) →
  ∀ es, mapM f (entry_json <$> es) = Ok (g <$> es).
Proof.
  intros Hf es. induction es as [|e es IH]; [done|].
  change (mapM f (entry_json <$> e :: es))
    with (y ← f (entry_json e); ys ← mapM f (entry_json <$> es); Ok (y :: ys)).
  by rewrite Hf, IH.
Qed.

Lemma hourly_entry_record e : hourly_entry (entry_json e) = Ok (hourly_record e).
Proof.
  unfold hourly_entry, hourly_record.
  change (getitem (entry_json e) "significantWeatherCode")
    with (Ok (code_json (significantWeatherCode e))).
  cbn [mbind result_bind]. rewrite condition_of_code. reflexivity.
Qed.

Lemma async_forecast_hourly_series self time_series :
  _data self = JObj (response_with time_series) →
  async_forecast_hourly self = Some <$> mapM hourly_entry time_series.
Proof. intros Hdata. unfold async_forecast_hourly. rewrite Hdata. reflexivity. Qed.

(** X5. For a stored response with a time series of [n] well-formed
    entries, the hourly forecast has [n] records, the [i]-th made from the
    [i]-th entry alone: its timestamp as it is (parsed or not, so an entry
    the daily forecast skips is still here), its temperature, rate and
    probability of precipitation, wind speed and bearing, and the table's
    condition for its code. *)
Theorem hourly_forecast_one_to_one self es :
  _data self = JObj (response_body es) →
  ∃ forecasts,
    async_forecast_hourly self = Ok (Some forecasts)
    ∧ length forecasts = length es
    ∧ ∀ i e, es !! i = Some e → forecasts !! i = Some (hourly_record e).
Proof.
  intros Hdata. exists (hourly_record <$> es).
  rewrite (async_forecast_hourly_series self (entry_json <$> es) Hdata).
  rewrite (mapM_entries hourly_entry hourly_record hourly_entry_record).
  split; [done|]. split; [by rewrite length_fmap|].
  intros i e Hi. by rewrite list_lookup_fmap, Hi.
Qed.

Lemma hourly_forecast_one_to_one_witness :
  _data (stored (JObj (response_body example_series)) init)
  = JObj (response_body example_series)
  ∧ ∃ forecasts,
      async_forecast_hourly (stored (JObj (response_body example_series)) init)
      = Ok (Some forecasts)
      ∧ length forecasts = 5%nat
      ∧ HOURLY_TIME <$> forecasts !! 2%nat = Some (JStr "not a timestamp").
Proof.
  split; [reflexivity|].
  destruct (hourly_forecast_one_to_one (stored (JObj (response_body example_series)) init)
              example_series eq_refl) as (forecasts & Hrun & Hlen & Hnth).
  exists forecasts. split; [exact Hrun|]. split; [exact Hlen|].
  rewrite (Hnth 2%nat (entry_at "not a timestamp" (Zc 50) (Zc 0) 7) eq_refl). reflexivity.
Defined.

(** ** What every reachable entity satisfies *)

Lemma update_current_conditions_condition current self w r self' w' :
  update_current_conditions current (self, w) = (r, (self', w')) →
  _attr_condition self' = _attr_condition self
  ∨ ∃ code name, condition_of code = Ok name ∧ _attr_condition self' = Some name.
Proof.
  unfold update_current_conditions. run_entity.
  intros H. repeat (case_match; simplify_eq; simpl in *; auto).
  right. unfold mbind, result_bind in *. repeat (case_match; simplify_eq). eauto.
Qed.

Lemma async_update_condition net self w r self' w' :
  async_update net (self, w) = (r, (self', w')) →
  _attr_condition self' = _attr_condition self
  ∨ ∃ code name, condition_of code = Ok name ∧ _attr_condition self' = Some name.
Proof.
  unfold async_update.
  unfold mbind at 1, M_bind at 1, try_except.
  unfold mbind at 1, M_bind at 1, in_world.
  destruct (async_get_forecast net "hourly" w) as [[data|e] w1].
  - run_entity. intros H.
    repeat (case_match; simplify_eq; simpl in *; auto).
    by apply update_current_conditions_condition in H.
  - run_entity. intros H. simplify_eq. auto.
Qed.

(** X6. Whatever the provider answered in any number of refreshes, with
    a response of any shape or none, and whether or not the refreshes
    raised: the condition of the entity is [None] or one of the eleven
    condition names. *)
Theorem reachable_entity_invariants self :
  reachable self →
  ∀ name, _attr_condition self = Some name → name ∈ CONDITIONS.
Proof.
  induction 1 as [|net self w r self' w' Hreach IH Hrun]; [done|].
  intros name Hname.
  destruct (async_update_condition _ _ _ _ _ _ Hrun) as [Hsame|(code & name' & Hcode & Hnew)].
  - apply IH. by rewrite <- Hsame.
  - rewrite Hnew in Hname. injection Hname as <-.
    pose proof (condition_is_canonical_aux code) as Hcanon.
    rewrite Hcode in Hcanon. by destruct Hcanon.
Qed.

Lemma reachable_entity_invariants_witness :
  ∃ self,
    async_update (net_returning (response_body example_series)) (init, world0)
    = (Ok (), (self, world1))
    ∧ reachable self
    ∧ _attr_condition self = Some "partlycloudy"
    ∧ "partlycloudy" ∈ CONDITIONS.
Proof.
  pose proof (async_update_well_formed (net_returning (response_body example_series))
                init world0 world1 example_first example_rest _ eq_refl pressure_example)
    as Hrun.
  eexists. split; [exact Hrun|].
  pose proof (reachable_update _ _ _ _ _ _ reachable_init Hrun) as Hreach.
  split; [exact Hreach|]. split; [reflexivity|].
  exact (reachable_entity_invariants _ Hreach _ eq_refl).
Defined.

(** ** The two forecasts of one entity *)

Lemma bind_not_none {A B} (m : result A) (k : A → result (option B)) :
  (∀ a, k a ≠ Ok None) → m ≫= k ≠ Ok None.
Proof. intros Hk. destruct m as [a|e]; [apply Hk|done]. Qed.

Lemma fmap_Some_not_none {A} (m : result A) : Some <$> m ≠ Ok None.
Proof. by destruct m. Qed.

Lemma getitem_lookup d k :
  getitem (JObj d) k = match dict_lookup k d with Some v => Ok v | None => Raise KeyError end.
Proof. reflexivity. Qed.

Section views.

Context {datetime date : Type} `{EqDecision date}.
Variable parse_datetime : string → result (option datetime).
Variable date_of : datetime → date.
Variable set_iter : list json → list json.
Variable adder : summation.

#[local] Abbreviation async_forecast_daily :=
  (async_forecast_daily parse_datetime date_of set_iter adder).
#[local] Abbreviation group_entries :=
  (group_entries parse_datetime date_of set_iter adder).
#[local] Abbreviation group_entry := (group_entry parse_datetime date_of set_iter adder).
#[local] Abbreviation flush := (flush set_iter adder).
#[local] Abbreviation _create_daily_forecast := (_create_daily_forecast set_iter adder).

(** X7. Each forecast answers [None] exactly when what the entity stores
    is falsy: [None] before the first fetch that returned, or a body that
    was [null], an empty object or array, zero, an empty string or
    [false]. For every other stored value the forecast is a list or an
    exception, never [None]. *)
Theorem forecast_none_iff_nothing_stored self :
  (async_forecast_hourly self = Ok None ↔ truthy (_data self) = false)
  ∧ (async_forecast_daily self = Ok None ↔ truthy (_data self) = false).
Proof.
  unfold async_forecast_hourly, MetOfficeDataHubWeather.async_forecast_daily.
  destruct (truthy (_data self)); cbn [negb].
  - split; (split; [|done]); intros Hnone; exfalso; revert Hnone.
    + do 3 (apply bind_not_none; intros ?). apply fmap_Some_not_none.
    + do 4 (apply bind_not_none; intros ?). apply fmap_Some_not_none.
  - by split.
Qed.

(** X8. A refresh whose fetch raises leaves both forecasts as they were
    before it: the entity, now marked unavailable, still answers from the
    response of the last fetch that returned. *)
Theorem failed_refresh_keeps_forecasts net self w e w1 r self' w' :
  async_get_forecast net "hourly" w = (Raise e, w1) →
  async_update net (self, w) = (r, (self', w')) →
  _attr_available self' = false
  ∧ async_forecast_hourly self' = async_forecast_hourly self
  ∧ async_forecast_daily self' = async_forecast_daily self.
Proof.
  intros Hfetch Hrun.
  rewrite (async_update_fetch_raises _ _ _ _ _ Hfetch) in Hrun.
  injection Hrun as _ <- _. done.
Qed.

(** X9. A refresh that stored a response with a structural gap only logs
    an error and returns; the forecasts of the entity it leaves behind then
    raise [KeyError], unless the response is the empty object, for which
    they answer [None]. *)
Theorem forecasts_of_gapped_response net self w w1 body msg r self' w' :
  async_get_forecast net "hourly" w = (Ok (JObj body), w1) →
  structural_gap body msg →
  async_update net (self, w) = (r, (self', w')) →
  async_forecast_hourly self' = match body with [] => Ok None | _ => Raise KeyError end
  ∧ async_forecast_daily self' = match body with [] => Ok None | _ => Raise KeyError end.
Proof.
  intros Hfetch Hgap Hrun.
  pose proof (async_update_data _ _ _ _ _ _ _ _ Hfetch Hrun) as Hdata.
  unfold async_forecast_hourly, async_forecast_daily. rewrite Hdata.
  destruct body as [|item body]; [done|]. cbn [truthy negb].
  split.
  all: inversion Hgap as [? Hf|? feature rest Hf Hp|? feature rest properties Hf Hp Ht]; subst.
  all: rewrite getitem_lookup, Hf; cbn [mbind result_bind getitem0]; try done.
  all: rewrite getitem_lookup, Hp; cbn [mbind result_bind]; try done.
  all: rewrite getitem_lookup, Ht; done.
Qed.

(** *** The daily forecast of any time series *)

#[local] Abbreviation async_forecast_daily_series :=
  (async_forecast_daily_series parse_datetime date_of set_iter adder).
#[local] Abbreviation group_entries_app :=
  (group_entries_app parse_datetime date_of set_iter adder).

Lemma group_entry_unparsed g d s :
  dict_lookup "time" d = Some (JStr s) → parse_datetime s = Ok None →
  group_entry g (JObj d) = Ok g.
Proof.
  intros Htime Hparse. unfold MetOfficeDataHubWeather.group_entry, getitem. rewrite Htime.
  cbn [mbind result_bind dt_parse_datetime]. by rewrite Hparse.
Qed.

(** X10. An entry whose ['time'] is a string that does not parse is
    dropped by the daily forecast whatever else it holds or lacks: the
    forecast of the series with the entry is the forecast of the series
    without it, the same records or the same exception. *)
Theorem daily_forecast_drops_unparsed self self' pre post d s :
  _data self = JObj (response_with (pre ++ JObj d :: post)) →
  _data self' = JObj (response_with (pre ++ post)) →
  dict_lookup "time" d = Some (JStr s) →
  parse_datetime s = Ok None →
  async_forecast_daily self = async_forecast_daily self'.
Proof.
  intros Hdata Hdata' Htime Hparse.
  rewrite (async_forecast_daily_series _ _ Hdata), (async_forecast_daily_series _ _ Hdata').
  rewrite !group_entries_app.
  destruct (group_entries _ pre) as [g|e]; [|done].
  cbn [mbind result_bind MetOfficeDataHubWeather.group_entries].
  by rewrite (group_entry_unparsed _ _ _ Htime Hparse).
Qed.

Lemma create_daily_forecast_time daily_data f :
  _create_daily_forecast daily_data = Ok f →
  ∃ first, head daily_data = Some first
           ∧ getitem first "time" = Ok (ATTR_FORECAST_TIME f).
Proof.
  unfold _create_daily_forecast. intros Hf.
  repeat match type of Hf with
         | (?m ≫= _) = Ok _ =>
             let E := fresh "E" in
             destruct m eqn:E; cbn [mbind result_bind] in Hf; [|discriminate]
         end.
  injection Hf as <-. cbn [ATTR_FORECAST_TIME].
  destruct daily_data as [|first rest]; [discriminate|]. by exists first.
Qed.

Lemma flush_inv (seen : list json) forecasts daily_data forecasts' :
  Forall (λ f, ∃ entry, entry ∈ seen ∧ getitem entry "time" = Ok (ATTR_FORECAST_TIME f))
    forecasts →
  (∀ entry, entry ∈ daily_data → entry ∈ seen) →
  flush forecasts daily_data = Ok forecasts' →
  length forecasts' = (length forecasts + match daily_data with [] => 0 | _ => 1 end)%nat
  ∧ Forall (λ f, ∃ entry, entry ∈ seen ∧ getitem entry "time" = Ok (ATTR_FORECAST_TIME f))
      forecasts'.
Proof.
  intros Hfs Hdata. unfold flush.
  destruct daily_data as [|first rest]; [intros [= <-]; split; [lia|done]|].
  destruct (_create_daily_forecast (first :: rest)) as [f|e] eqn:Hf; [|done].
  cbn [mbind result_bind]. intros [= <-]. rewrite length_app. split; [done|].
  apply Forall_app. split; [done|]. constructor; [|done].
  destruct (create_daily_forecast_time _ _ Hf) as (first' & [= <-] & Htime).
  exists first. split; [apply Hdata; set_solver|done].
Qed.

Lemma group_entry_inv (seen : list json) g entry g' :
  (length (daily_forecasts g) + match daily_data g with [] => 0 | _ => 1 end
   ≤ length seen)%nat →
  Forall (λ f, ∃ entry, entry ∈ seen ∧ getitem entry "time" = Ok (ATTR_FORECAST_TIME f))
    (daily_forecasts g) →
  (∀ entry, entry ∈ daily_data g → entry ∈ seen) →
  group_entry g entry = Ok g' →
  (length (daily_forecasts g') + match daily_data g' with [] => 0 | _ => 1 end
   ≤ length (seen ++ [entry]))%nat
  ∧ Forall (λ f, ∃ entry', entry' ∈ seen ++ [entry]
                  ∧ getitem entry' "time" = Ok (ATTR_FORECAST_TIME f))
      (daily_forecasts g')
  ∧ (∀ entry', entry' ∈ daily_data g' → entry' ∈ seen ++ [entry]).
Proof.
  intros Hlen Hfs Hdata. unfold group_entry.
  assert (Hweak : ∀ fs,
    Forall (λ f, ∃ entry, entry ∈ seen ∧ getitem entry "time" = Ok (ATTR_FORECAST_TIME f)) fs →
    Forall (λ f, ∃ entry', entry' ∈ seen ++ [entry]
                  ∧ getitem entry' "time" = Ok (ATTR_FORECAST_TIME f)) fs).
  { intros fs Hall. eapply Forall_impl; [exact Hall|].
    intros f (x & Hx & Ht). exists x. split; [set_solver|done]. }
  rewrite length_app. cbn [length].
  destruct (getitem entry "time" ≫= dt_parse_datetime parse_datetime) as [[timestamp|]|];
    cbn [mbind result_bind]; [| |done].
  - destruct (current_day g) as [current|].
    + case_decide.
      * destruct (flush (daily_forecasts g) (daily_data g)) as [forecasts|] eqn:Hflush;
          cbn [mbind result_bind]; [|done].
        intros [= <-]. cbn [daily_forecasts daily_data app].
        destruct (flush_inv seen _ _ _ Hfs Hdata Hflush) as [Hn Hfs'].
        split; [lia|]. split; [by apply Hweak|]. set_solver.
      * cbn [mbind result_bind]. intros [= <-]. cbn [daily_forecasts daily_data].
        split; [destruct (daily_data g); simpl in *; lia|].
        split; [by apply Hweak|]. set_solver.
    + cbn [mbind result_bind]. intros [= <-]. cbn [daily_forecasts daily_data].
      split; [destruct (daily_data g); simpl in *; lia|].
      split; [by apply Hweak|]. set_solver.
  - intros [= <-]. split; [lia|]. split; [by apply Hweak|]. set_solver.
Qed.

Lemma group_entries_bounded time_series : ∀ (seen : list json) g g',
  (length (daily_forecasts g) + match daily_data g with [] => 0 | _ => 1 end
   ≤ length seen)%nat →
  Forall (λ f, ∃ entry, entry ∈ seen ∧ getitem entry "time" = Ok (ATTR_FORECAST_TIME f))
    (daily_forecasts g) →
  (∀ entry, entry ∈ daily_data g → entry ∈ seen) →
  group_entries g time_series = Ok g' →
  (length (daily_forecasts g') + match daily_data g' with [] => 0 | _ => 1 end
   ≤ length (seen ++ time_series))%nat
  ∧ Forall (λ f, ∃ entry, entry ∈ seen ++ time_series
                  ∧ getitem entry "time" = Ok (ATTR_FORECAST_TIME f))
      (daily_forecasts g')
  ∧ (∀ entry, entry ∈ daily_data g' → entry ∈ seen ++ time_series).
Proof.
  induction time_series as [|entry rest IH]; intros seen g g' Hlen Hfs Hdata.
  - intros [= <-]. by rewrite app_nil_r.
  - cbn [group_entries].
    destruct (group_entry g entry) as [g1|] eqn:Hstep; cbn [mbind result_bind]; [|done].
    intros Hrest.
    destruct (group_entry_inv _ _ _ _ Hlen Hfs Hdata Hstep) as (Hlen1 & Hfs1 & Hdata1).
    rewrite cons_middle, (assoc_L (++)). by eapply IH.
Qed.

(** X11. Whatever JSON the time series holds: when the daily forecast
    returns a list, it has no more records than the series has entries
    (an hourly series is reduced, never expanded), and the timestamp of
    every record is the ['time'] value of an entry of the series. *)
Theorem daily_forecast_bounded self time_series forecasts :
  _data self = JObj (response_with time_series) →
  async_forecast_daily self = Ok (Some forecasts) →
  (length forecasts ≤ length time_series)%nat
  ∧ ∀ f, f ∈ forecasts →
      ∃ entry, entry ∈ time_series ∧ getitem entry "time" = Ok (ATTR_FORECAST_TIME f).
Proof.
  intros Hdata. rewrite (async_forecast_daily_series _ _ Hdata).
  destruct (group_entries _ time_series) as [g|] eqn:Hloop; cbn [mbind result_bind]; [|done].
  destruct (flush (daily_forecasts g) (daily_data g)) as [fs|] eqn:Hflush; [|done].
  intros [= <-].
  destruct (group_entries_bounded time_series [] (mkGrouping [] None []) g)
    as (Hlen & Hfs & Hin); [simpl; lia|done|set_solver|exact Hloop|].
  rewrite app_nil_l in *.
  destruct (flush_inv _ _ _ _ Hfs Hin Hflush) as [Hn Hfs'].
  split; [lia|]. intros f Hf. by apply (proj1 (Forall_forall _ _) Hfs').
Qed.

End views.

Lemma failed_refresh_keeps_forecasts_witness :
  let self := with_current_conditions example_first (Q2Qc 1013.25)
                (stored (JObj (response_body example_series)) init) in
  ∃ self' w',
    async_update (net_failing TimeoutError) (self, world1) = (Ok (), (self', w'))
    ∧ _attr_available self' = false
    ∧ async_forecast_hourly self' = async_forecast_hourly self
    ∧ async_forecast_daily iso_parse iso_date small_int_set exact_adder self'
      = async_forecast_daily iso_parse iso_date small_int_set exact_adder self.
Proof.
  intros self.
  pose proof (async_update_fetch_raises (net_failing TimeoutError) self world1
                TimeoutError _ eq_refl) as Hrun.
  eexists _, _. split; [exact Hrun|].
  exact (failed_refresh_keeps_forecasts iso_parse iso_date small_int_set exact_adder
           (net_failing TimeoutError) self world1 TimeoutError _ _ _ _ eq_refl Hrun).
Defined.

Lemma forecasts_of_gapped_response_witness :
  structural_gap no_features "Invalid data received from Met Office (DataHub)"
  ∧ ∃ self',
      async_update (net_returning no_features) (init, world0)
      = (Ok (), (self', World 1 (trace world1
                                 ++ [Log ERROR "Invalid data received from Met Office (DataHub)"])))
      ∧ async_forecast_hourly self' = Raise KeyError
      ∧ async_forecast_daily iso_parse iso_date small_int_set exact_adder self' = Raise KeyError.
Proof.
  assert (Hgap : structural_gap no_features "Invalid data received from Met Office (DataHub)")
    by (by constructor).
  split; [exact Hgap|].
  assert (Hrun : async_update (net_returning no_features) (init, world0)
                 = (Ok (), (stored (JObj no_features) init,
                            World 1 (trace world1
                                     ++ [Log ERROR "Invalid data received from Met Office (DataHub)"]))))
    by reflexivity.
  eexists. split; [exact Hrun|].
  exact (forecasts_of_gapped_response iso_parse iso_date small_int_set exact_adder
           (net_returning no_features) init world0 world1 no_features _ _ _ _
           eq_refl Hgap Hrun).
Defined.

Lemma daily_forecast_drops_unparsed_witness :
  iso_parse "not a timestamp" = Ok None
  ∧ async_forecast_hourly
      (stored (JObj (response_with [entry_json example_first; JObj unparsed_entry])) init)
    = Raise KeyError
  ∧ async_forecast_daily iso_parse iso_date small_int_set exact_adder
      (stored (JObj (response_with [entry_json example_first; JObj unparsed_entry])) init)
    = async_forecast_daily iso_parse iso_date small_int_set exact_adder
        (stored (JObj (response_with [entry_json example_first])) init).
Proof.
  split; [reflexivity|]. split; [reflexivity|].
  apply (daily_forecast_drops_unparsed iso_parse iso_date small_int_set exact_adder
           (stored (JObj (response_with ([entry_json example_first] ++ [JObj unparsed_entry]))) init)
           (stored (JObj (response_with ([entry_json example_first] ++ []))) init)
           [entry_json example_first] [] unparsed_entry "not a timestamp");
    reflexivity.
Defined.

Lemma daily_forecast_bounded_witness :
  ∃ forecasts,
    async_forecast_daily iso_parse iso_date small_int_set exact_adder
      (stored (JObj (response_with (entry_json <$> example_series))) init)
    = Ok (Some forecasts)
    ∧ (length forecasts ≤ 5)%nat
    ∧ ∀ f, f ∈ forecasts →
        ∃ entry, entry ∈ entry_json <$> example_series
                 ∧ getitem entry "time" = Ok (ATTR_FORECAST_TIME f).
Proof.
  assert (Hrun : ∃ forecasts,
            async_forecast_daily iso_parse iso_date small_int_set exact_adder
              (stored (JObj (response_with (entry_json <$> example_series))) init)
            = Ok (Some forecasts)) by (vm_compute; eauto).
  destruct Hrun as [forecasts Hrun]. exists forecasts. split; [exact Hrun|].
  exact (daily_forecast_bounded iso_parse iso_date small_int_set exact_adder
           (stored (JObj (response_with (entry_json <$> example_series))) init)
           (entry_json <$> example_series) forecasts eq_refl Hrun).
Defined.

(** ** What a fetch and a refresh do to the outside world *)

Lemma request_urls_app evs1 evs2 :
  request_urls (evs1 ++ evs2) = request_urls evs1 ++ request_urls evs2.
Proof. induction evs1 as [|[]]; simpl; auto. by f_equal. Qed.

Lemma errors_in_app evs1 evs2 : errors_in (evs1 ++ evs2) = errors_in evs1 ++ errors_in evs2.
Proof. apply omap_app. Qed.

Lemma warnings_in_app evs1 evs2 :
  warnings_in (evs1 ++ evs2) = (warnings_in evs1 + warnings_in evs2)%nat.
Proof. induction evs1 as [|[[]| |] evs1 IH]; simpl; auto. Qed.

(** One attempt, whatever the provider does: one request to the endpoint;
    an error record exactly when the attempt raises a [ClientError]; a
    warning exactly when it sleeps. *)
Lemma attempt_body_events net endpoint attempt w :
  ∃ evs r,
    attempt_body net endpoint attempt w = (r, World (S (sent w)) (trace w ++ evs))
    ∧ requests_in evs = 1%nat
    ∧ request_urls evs = [endpoint]
    ∧ errors_in evs = match r with Raise e => error_records e | Ok _ => [] end
    ∧ warnings_in evs = length (sleeps_in evs).
Proof.
  unfold attempt_body. run.
  destruct (net (sent w)) as [body|e]; simpl.
  { rewrite <- ?(assoc_L (++)). eexists _, _. split; [reflexivity|]. by split_and!. }
  destruct e; simpl;
    repeat match goal with
           | |- context [if ?b then _ else _] => destruct b eqn:?; simpl
           end;
    rewrite <- ?(assoc_L (++)); eexists _, _; (split; [reflexivity|]); simpl;
    rewrite ?Heqb; by split_and!.
Qed.

Lemma for_in_events net endpoint attempts : ∀ w,
  ∃ evs r,
    for_in attempts (attempt_body net endpoint) w
    = (r, World (sent w + requests_in evs) (trace w ++ evs))
    ∧ request_urls evs = replicate (requests_in evs) endpoint
    ∧ errors_in evs = match r with Raise e => error_records e | Ok _ => [] end
    ∧ warnings_in evs = length (sleeps_in evs).
Proof.
  induction attempts as [|attempt attempts IH]; intros w.
  { exists [], (Ok None). simpl. rewrite app_nil_r, Nat.add_0_r. destruct w. by split_and!. }
  rewrite for_in_cons.
  destruct (attempt_body_events net endpoint attempt w)
    as (evs1 & r1 & -> & Hn1 & Hurls1 & Herrors1 & Hwarn1).
  destruct r1 as [[|body]|e].
  - destruct (IH (World (S (sent w)) (trace w ++ evs1)))
      as (evs2 & r & -> & Hurls2 & Herrors2 & Hwarn2).
    exists (evs1 ++ evs2), r. cbn [sent trace].
    rewrite requests_in_app, request_urls_app, errors_in_app, warnings_in_app,
      sleeps_in_app, length_app, Hn1, Hurls1, Hurls2, Herrors1, Herrors2, Hwarn1, Hwarn2,
      (assoc_L (++)).
    replace (sent w + (1 + requests_in evs2))%nat with (S (sent w) + requests_in evs2)%nat
      by lia.
    by split_and!.
  - exists evs1, (Ok (Some body)). rewrite Hn1, Hurls1.
    replace (sent w + 1)%nat with (S (sent w)) by lia. by split_and!.
  - exists evs1, (Raise e). rewrite Hn1, Hurls1.
    replace (sent w + 1)%nat with (S (sent w)) by lia. by split_and!.
Qed.

Lemma world_trace_inj n1 n2 (evs0 evs1 evs2 : list event) :
  World n1 (evs0 ++ evs1) = World n2 (evs0 ++ evs2) → evs1 = evs2.
Proof. intros [= _ Heq]. by apply app_inv_head in Heq. Qed.

Lemma async_get_forecast_events net forecast_type w path :
  ENDPOINTS !! forecast_type = Some path →
  ∃ evs r,
    async_get_forecast net forecast_type w
    = (r, World (sent w + requests_in evs) (trace w ++ evs))
    ∧ (1 ≤ requests_in evs ≤ 3)%nat
    ∧ request_urls evs = replicate (requests_in evs) (BASE_URL +:+ path)
    ∧ errors_in evs = match r with Raise e => error_records e | Ok _ => [] end
    ∧ warnings_in evs = length (sleeps_in evs)
    ∧ 0 ≤ seconds_slept evs ≤ 3.
Proof.
  intros Hpath.
  assert (Hvalid : valid_forecast_type forecast_type).
  { destruct (decide (valid_forecast_type forecast_type)) as [|Hinvalid]; [done|].
    apply invalid_endpoint in Hinvalid. congruence. }
  destruct (async_get_forecast_spec net forecast_type w Hvalid)
    as (evs' & r' & Hrun' & Hn & _ & Hsleeps & _).
  revert Hrun'. unfold async_get_forecast. rewrite Hpath. cbn zeta.
  unfold retry_loop, mbind, M_bind.
  destruct (for_in_events net (BASE_URL +:+ path) (range 3) w)
    as (evs & r & -> & Hurls & Herrors & Hwarn).
  intros Hrun'.
  assert (evs = evs') as <-.
  { destruct r as [[body|]|e]; simpl in Hrun'; injection Hrun' as _ _ Heq;
      by apply app_inv_head in Heq. }
  destruct r as [[body|]|e]; simpl; eexists _, _; (split; [reflexivity|]);
    (split_and!; try done; try lia);
    unfold seconds_slept; rewrite Hsleeps;
    destruct (requests_in evs) as [|[|[|[|]]]]; try lia; by vm_compute.
Qed.

(** X12. Whatever the provider does, a fetch of a valid forecast type
    sends every one of its one to three requests to [BASE_URL] followed by
    the path of that type; it logs one error record when it raises a
    [ClientError] (for status 401 the invalid-key record) and none when it
    returns or raises anything else, so an attempt that is retried is never
    logged as an error; each sleep comes with one warning; and it sleeps at
    most 3 seconds in all. *)
Theorem fetch_trace_account net forecast_type w path :
  ENDPOINTS !! forecast_type = Some path →
  ∃ evs r,
    async_get_forecast net forecast_type w
    = (r, World (sent w + requests_in evs) (trace w ++ evs))
    ∧ (1 ≤ requests_in evs ≤ 3)%nat
    ∧ request_urls evs = replicate (requests_in evs) (BASE_URL +:+ path)
    ∧ errors_in evs = match r with Raise e => error_records e | Ok _ => [] end
    ∧ warnings_in evs = length (sleeps_in evs)
    ∧ 0 ≤ seconds_slept evs ≤ 3.
Proof. apply async_get_forecast_events. Qed.

Lemma fetch_trace_account_witness :
  ENDPOINTS !! "three_hourly" = Some "/three-hourly"
  ∧ ∃ evs r,
      async_get_forecast (net_failing ClientConnectionError) "three_hourly" world0
      = (r, World (0 + requests_in evs) ([] ++ evs))
      ∧ request_urls evs
        = replicate (requests_in evs)
            "https://data.hub.api.metoffice.gov.uk/sitespecific/v0/point/three-hourly"
      ∧ warnings_in evs = length (sleeps_in evs).
Proof.
  split; [reflexivity|].
  destruct (fetch_trace_account (net_failing ClientConnectionError) "three_hourly" world0
              "/three-hourly" eq_refl) as (evs & r & Hrun & _ & Hurls & _ & Hwarn & _).
  exists evs, r. split; [exact Hrun|]. split; [exact Hurls|exact Hwarn].
Defined.

Lemma update_current_conditions_world current self w r self' w' :
  update_current_conditions current (self, w) = (r, (self', w')) → w' = w.
Proof.
  unfold update_current_conditions. run_entity.
  intros H. repeat (case_match; simplify_eq; simpl in *; auto).
Qed.

(** After the fetch the refresh sends nothing and sleeps never; it logs
    at most one error record. *)
Lemma async_update_after_fetch net self w data w1 r self' w' :
  async_get_forecast net "hourly" w = (Ok data, w1) →
  async_update net (self, w) = (r, (self', w')) →
  w' = w1 ∨ ∃ msg, w' = World (sent w1) (trace w1 ++ [Log ERROR msg]).
Proof.
  intros Hfetch. unfold async_update.
  unfold mbind at 1, M_bind at 1, try_except.
  unfold mbind at 1, M_bind at 1, in_world. rewrite Hfetch.
  run_entity. intros H.
  repeat (case_match; simplify_eq; simpl in *; eauto).
  left. by eapply update_current_conditions_world.
Qed.

(** X13. Whatever the provider does, one refresh makes between one and
    three requests, all to the hourly endpoint, and sleeps at most 3
    seconds. When the fetch raises, the refresh logs the client's error
    record, if there is one, and then its own, so a [ClientError] is
    logged twice; when the fetch returns, the refresh logs at most one
    error record. *)
Theorem refresh_outside_effects net self w :
  ∃ evs,
    (async_update net (self, w)).2.2 = World (sent w + requests_in evs) (trace w ++ evs)
    ∧ (1 ≤ requests_in evs ≤ 3)%nat
    ∧ request_urls evs = replicate (requests_in evs) HOURLY_URL
    ∧ 0 ≤ seconds_slept evs ≤ 3
    ∧ match (async_get_forecast net "hourly" w).1 with
      | Raise e => errors_in evs = error_records e ++ [MSG_FETCH]
      | Ok _ => (length (errors_in evs) ≤ 1)%nat
      end.
Proof.
  destruct (async_get_forecast_events net "hourly" w "/hourly" eq_refl)
    as (evs & r & Hfetch & Hn & Hurls & Herrors & _ & Hslept).
  rewrite Hfetch. cbn [fst].
  destruct r as [data|e].
  - destruct (async_update net (self, w)) as [r [self' w']] eqn:Hrun. cbn [snd].
    destruct (async_update_after_fetch _ _ _ _ _ _ _ _ Hfetch Hrun) as [->|[msg ->]].
    + exists evs. rewrite Herrors. split_and!; try done; simpl; lia.
    + exists (evs ++ [Log ERROR msg]). cbn [sent trace].
      rewrite requests_in_app, request_urls_app, errors_in_app, Herrors, (assoc_L (++)).
      unfold seconds_slept in *. rewrite sleeps_in_app. simpl.
      rewrite !Nat.add_0_r, !app_nil_r. split_and!; try done; simpl; lia.
  - rewrite (async_update_fetch_raises _ _ _ _ _ Hfetch). cbn [snd sent trace].
    exists (evs ++ [Log ERROR MSG_FETCH]).
    rewrite requests_in_app, request_urls_app, errors_in_app, Herrors, (assoc_L (++)).
    unfold seconds_slept in *. rewrite sleeps_in_app. simpl.
    rewrite !Nat.add_0_r, !app_nil_r. split_and!; try done; simpl; lia.
Qed.

(** ** Setting up and unloading the integration *)

Ltac run_hass :=
  unfold Integration.async_setup_entry, Integration.async_unload_entry,
    WeatherPlatform.async_setup_entry, add_entities, async_close, API_init, domain_data,
    in_outside;
  unfold mbind, M_bind, mret, M_ret, modify, lift_result; cbn.

Lemma not_complete input :
  ¬ complete input →
  dict_lookup "api_key" input = None
  ∨ dict_lookup "latitude" input = None
  ∨ dict_lookup "longitude" input = None.
Proof.
  unfold complete, CONF_API_KEY, CONF_LATITUDE, CONF_LONGITUDE. intros Hnot.
  destruct (dict_lookup "api_key" input); [|by left].
  destruct (dict_lookup "latitude" input); [|by right; left].
  destruct (dict_lookup "longitude" input); [|by right; right].
  destruct Hnot. by split_and!.
Qed.

Lemma platform_setup_after_setup py_str entry h api_key latitude longitude :
  dict_lookup "api_key" (data entry) = Some api_key →
  dict_lookup "latitude" (data entry) = Some latitude →
  dict_lookup "longitude" (data entry) = Some longitude →
  Integration.async_setup_entry (WeatherPlatform.async_setup_entry py_str add_entities)
    entry h
  = (Ok true,
     mkHass
       (Some (<[entry_id entry := mkClient api_key latitude longitude (opened h)]>
                (default ∅ (hass_data h))))
       (added h ++ [Weather_init py_str (mkClient api_key latitude longitude (opened h))
                      (title entry)])
       (S (opened h)) (closed h) (outside h)).
Proof.
  intros Hkey Hlat Hlon. run_hass. rewrite Hkey, Hlat, Hlon. cbn.
  unfold client_of. by rewrite lookup_insert_eq.
Qed.

(** X14. Setting up an entry whose data holds the three keys, with the
    weather platform as the set-up it forwards to, returns [True] and never
    raises: the platform finds under the entry's id the client that was
    just stored, also when the domain dictionary did not exist before, and
    adds one entity, bound to that client and its new session, named by
    the entry's title, with no data and marked unavailable. Clients of
    other entries stay as they were. *)
Theorem setup_adds_entity_of_stored_client py_str entry h api_key latitude longitude :
  dict_lookup "api_key" (data entry) = Some api_key →
  dict_lookup "latitude" (data entry) = Some latitude →
  dict_lookup "longitude" (data entry) = Some longitude →
  ∃ h' api,
    Integration.async_setup_entry (WeatherPlatform.async_setup_entry py_str add_entities)
      entry h = (Ok true, h')
    ∧ api = mkClient api_key latitude longitude (opened h)
    ∧ (hass_data h' ≫= (.!! entry_id entry)) = Some api
    ∧ (∀ other, other ≠ entry_id entry →
         (hass_data h' ≫= (.!! other)) = (hass_data h ≫= (.!! other)))
    ∧ added h' = added h ++ [mkEntity api (title entry)
                               ("metoffice_datahub_" +:+ py_str latitude +:+ "_"
                                +:+ py_str longitude) init]
    ∧ _attr_available init = false ∧ _data init = JNull
    ∧ opened h' = S (opened h) ∧ closed h' = closed h ∧ outside h' = outside h.
Proof.
  intros Hkey Hlat Hlon. eexists _, _.
  split; [exact (platform_setup_after_setup py_str entry h _ _ _ Hkey Hlat Hlon)|].
  split; [reflexivity|]. cbn. split; [by rewrite lookup_insert_eq|].
  split; [|done].
  intros other Hother. rewrite lookup_insert_ne by done.
  destruct (hass_data h); [done|]. cbn. by rewrite lookup_empty.
Qed.

Lemma setup_adds_entity_of_stored_client_witness :
  ∃ h',
    Integration.async_setup_entry (WeatherPlatform.async_setup_entry show add_entities)
      example_entry hass0 = (Ok true, h')
    ∧ _attr_unique_id <$> added h' = ["metoffice_datahub_51_-2"]
    ∧ _session ∘ _api <$> added h' = [0%nat]
    ∧ opened h' = 1%nat.
Proof.
  destruct (setup_adds_entity_of_stored_client show example_entry hass0 _ _ _
              eq_refl eq_refl eq_refl)
    as (h' & api & Hrun & -> & _ & _ & Hadded & _ & _ & Hopened & _).
  exists h'. split; [exact Hrun|]. rewrite Hadded. split; [reflexivity|].
  split; [reflexivity|exact Hopened].
Defined.

(** X15. When the entry's data lacks one of the three keys, set-up raises
    [KeyError] before a client or a session is created and before anything
    is forwarded to the platform, whatever that would do; the domain
    dictionary it created first stays empty in [hass.data]. *)
Theorem setup_missing_key forward entry h :
  ¬ complete (data entry) →
  Integration.async_setup_entry forward entry h
  = (Raise KeyError, set_hass_data (Some (default ∅ (hass_data h))) h).
Proof.
  intros [Hkey|[Hlat|Hlon]]%not_complete; run_hass.
  - by rewrite Hkey.
  - rewrite Hlat. by destruct (dict_lookup "api_key" (data entry)).
  - rewrite Hlon.
    by destruct (dict_lookup "api_key" (data entry)), (dict_lookup "latitude" (data entry)).
Qed.

Lemma setup_missing_key_witness :
  ¬ complete [("api_key", JStr "secret")]
  ∧ ∃ h',
      Integration.async_setup_entry (WeatherPlatform.async_setup_entry show add_entities)
        (mkConfigEntry "entry-2" [("api_key", JStr "secret")] "title") hass0
      = (Raise KeyError, h')
      ∧ hass_data h' = Some ∅ ∧ opened h' = 0%nat ∧ added h' = [].
Proof.
  assert (Hnot : ¬ complete [("api_key", JStr "secret")]).
  { intros (_ & [v Hv] & _). discriminate. }
  split; [exact Hnot|]. eexists. split.
  - exact (setup_missing_key (WeatherPlatform.async_setup_entry show add_entities)
             (mkConfigEntry "entry-2" [("api_key", JStr "secret")] "title") hass0 Hnot).
  - by split_and!.
Defined.

Lemma filter_open_below (closed_sessions : list nat) n : ∀ len start,
  (start + len ≤ n)%nat →
  filter (λ s, s ∉ closed_sessions ++ [n]) (seq start len)
  = filter (λ s, s ∉ closed_sessions) (seq start len).
Proof.
  induction len as [|len IH]; intros start Hle; [done|].
  cbn [seq]. rewrite !filter_cons, IH by lia.
  destruct (decide (start ∉ closed_sessions ++ [n])) as [Hout|Hin],
    (decide (start ∉ closed_sessions)) as [Hout'|Hin']; try done.
  - destruct Hin'. intros Hin'. apply Hout. set_solver.
  - destruct Hin. intros [Hin| ->%list_elem_of_singleton]%elem_of_app; [done|lia].
Qed.

(** Closing the session created last leaves the open sessions as they
    were before it was created. *)
Lemma open_sessions_closed_last h h' :
  opened h' = S (opened h) → closed h' = closed h ++ [opened h] →
  open_sessions h' = open_sessions h.
Proof.
  unfold open_sessions. intros -> ->.
  rewrite seq_S, filter_app, (filter_open_below _ _ _ 0) by lia. cbn [Nat.add].
  rewrite filter_cons, filter_nil.
  destruct (decide (opened h ∉ closed h ++ [opened h])) as [Hout|_]; [|by rewrite app_nil_r].
  destruct Hout. set_solver.
Qed.

#[local] Arguments open_sessions : simpl never.

(** X16. Set-up followed by unload is a round trip: when the platform
    unload succeeds and leaves the domain dictionary and the sessions
    alone, unloading the entry that was set up returns [True], removes the
    entry's client from the dictionary without touching the others, and
    closes the one session that set-up created, so the open sessions are
    those from before set-up. *)
Theorem setup_then_unload py_str unload_platforms entry h h1 h2 :
  complete (data entry) →
  Integration.async_setup_entry (WeatherPlatform.async_setup_entry py_str add_entities)
    entry h = (Ok true, h1) →
  unload_platforms entry h1 = (Ok true, h2) →
  hass_data h2 = hass_data h1 → opened h2 = opened h1 → closed h2 = closed h1 →
  ∃ h3,
    Integration.async_unload_entry unload_platforms entry h1 = (Ok true, h3)
    ∧ hass_data h3 = Some (delete (entry_id entry) (default ∅ (hass_data h)))
    ∧ closed h3 = closed h ++ [opened h]
    ∧ open_sessions h3 = open_sessions h
    ∧ added h3 = added h2 ∧ outside h3 = outside h2.
Proof.
  intros ([api_key Hkey] & [latitude Hlat] & [longitude Hlon]) Hsetup Hunload Hd Ho Hc.
  rewrite (platform_setup_after_setup py_str entry h _ _ _ Hkey Hlat Hlon) in Hsetup.
  injection Hsetup as <-. cbn in Hd, Ho, Hc.
  run_hass. rewrite Hunload, Hd. cbn.
  unfold client_of. rewrite lookup_insert_eq. cbn.
  eexists. split; [reflexivity|]. cbn. rewrite Hc.
  split; [by rewrite delete_insert_eq|]. split; [done|]. split; [|done].
  apply open_sessions_closed_last; cbn; [exact Ho|done].
Qed.

Lemma setup_then_unload_witness :
  complete (data example_entry)
  ∧ ∃ h1 h3,
      Integration.async_setup_entry (WeatherPlatform.async_setup_entry show add_entities)
        example_entry hass0 = (Ok true, h1)
      ∧ Integration.async_unload_entry (platforms_unloaded true) example_entry h1 = (Ok true, h3)
      ∧ hass_data h3 = Some ∅
      ∧ open_sessions h1 = [0%nat]
      ∧ open_sessions h3 = [].
Proof.
  assert (Hcomplete : complete (data example_entry)) by (split_and!; eexists; reflexivity).
  split; [exact Hcomplete|].
  pose proof (platform_setup_after_setup show example_entry hass0 _ _ _
                eq_refl eq_refl eq_refl) as Hsetup.
  destruct (setup_then_unload show (platforms_unloaded true) example_entry hass0 _ _
              Hcomplete Hsetup eq_refl eq_refl eq_refl eq_refl)
    as (h3 & Hunload & Hdata & _ & Hopen & _).
  eexists _, h3. split; [exact Hsetup|]. split; [exact Hunload|].
  split; [rewrite Hdata; reflexivity|]. split; [reflexivity|exact Hopen].
Defined.

(** X17. Unload does nothing of its own unless the platform unload
    succeeded and the entry's client is registered: when the platform
    unload returns [False] or raises, that is the outcome; when it
    succeeded but no client is stored under the entry's id, unload raises
    [KeyError] with the platforms already unloaded. In each case the state
    is the one the platform unload left, and no session is closed. *)
Theorem unload_without_client unload_platforms entry h r h1 :
  unload_platforms entry h = (r, h1) →
  r ≠ Ok true ∨ (hass_data h1 ≫= (.!! entry_id entry)) = None →
  Integration.async_unload_entry unload_platforms entry h
  = (match r with Ok true => Raise KeyError | _ => r end, h1).
Proof.
  intros Hunload Hwhy. run_hass. rewrite Hunload.
  destruct r as [[|]|e]; [|done|done].
  destruct Hwhy as [|Hnone]; [done|].
  destruct (hass_data h1) as [domain|]; [|done]. cbn in *.
  unfold client_of. by rewrite Hnone.
Qed.

Lemma unload_without_client_witness :
  Integration.async_unload_entry (platforms_unloaded true) example_entry hass0
  = (Raise KeyError, hass0)
  ∧ Integration.async_unload_entry (platforms_unloaded false) example_entry hass0
    = (Ok false, hass0).
Proof.
  split.
  - exact (unload_without_client (platforms_unloaded true) example_entry hass0 _ hass0
             eq_refl (or_intror eq_refl)).
  - refine (unload_without_client (platforms_unloaded false) example_entry hass0 _ hass0
              eq_refl (or_introl _)). discriminate.
Defined.

(** ** The configuration flow *)

#[local] Arguments async_get_forecast : simpl never.

Ltac run_flow :=
  unfold ConfigFlow.async_step_user, ConfigFlow.validate_input, ConfigFlow.title_of,
    CONF_API_KEY, CONF_LATITUDE, CONF_LONGITUDE, async_close, API_init, in_outside, emit;
  unfold mbind, M_bind, result_bind, mret, M_ret, modify, lift_result; cbn.

Lemma validate_input_complete net py_str input h api_key latitude longitude :
  dict_lookup "api_key" input = Some api_key →
  dict_lookup "latitude" input = Some latitude →
  dict_lookup "longitude" input = Some longitude →
  ConfigFlow.validate_input net py_str input h
  = match async_get_forecast net "hourly" (outside h) with
    | (Ok _, w1) =>
        (inr ("Met Office (" +:+ py_str latitude +:+ ", " +:+ py_str longitude +:+ ")"),
         mkHass (hass_data h) (added h) (S (opened h)) (closed h ++ [opened h]) w1)
    | (Raise e, w1) =>
        (inl (ConfigFlow.CannotConnect e),
         mkHass (hass_data h) (added h) (S (opened h)) (closed h ++ [opened h])
           (World (sent w1) (trace w1 ++ [Log ERROR "Error validating input: %s"])))
    end.
Proof.
  intros Hkey Hlat Hlon. run_flow. rewrite Hkey, Hlat, Hlon. cbn.
  by destruct (async_get_forecast net "hourly" (outside h)) as [[body|e] w1].
Qed.

Lemma validate_input_incomplete net py_str input h :
  ¬ complete input →
  ConfigFlow.validate_input net py_str input h = (inl (ConfigFlow.Exception KeyError), h).
Proof.
  intros [Hkey|[Hlat|Hlon]]%not_complete; run_flow.
  - by rewrite Hkey.
  - rewrite Hlat. by destruct (dict_lookup "api_key" input).
  - rewrite Hlon.
    by destruct (dict_lookup "api_key" input), (dict_lookup "latitude" input).
Qed.

Lemma complete_dec input : complete input ∨ ¬ complete input.
Proof.
  unfold complete.
  destruct (dict_lookup CONF_API_KEY input), (dict_lookup CONF_LATITUDE input),
    (dict_lookup CONF_LONGITUDE input);
    first [left; by split_and! | right; intros (H1 & H2 & H3); by inversion_clear H1
          | right; intros (H1 & H2 & H3); by inversion_clear H2
          | right; intros (H1 & H2 & H3); by inversion_clear H3].
Qed.

(** X18. Whatever the user submits and whatever the provider does, the
    user step of the configuration flow leaves no session open that was
    not open before (the session of the client it validates with is closed
    on the way out, also when the fetch raises), makes at most three
    requests, and leaves the stored clients and the entities alone. *)
Theorem config_step_leaves_no_session net py_str user_input h :
  let h' := (ConfigFlow.async_step_user net py_str user_input h).2 in
  open_sessions h' = open_sessions h
  ∧ (sent (outside h) ≤ sent (outside h') ≤ sent (outside h) + 3)%nat
  ∧ hass_data h' = hass_data h
  ∧ added h' = added h.
Proof.
  destruct user_input as [input|]; [|cbn; split_and!; done || lia].
  unfold ConfigFlow.async_step_user.
  destruct (complete_dec input) as [([api_key Hkey] & [latitude Hlat] & [longitude Hlon])|Hnot].
  - rewrite (validate_input_complete net py_str input h _ _ _ Hkey Hlat Hlon).
    destruct (async_get_forecast_events net "hourly" (outside h) "/hourly" eq_refl)
      as (evs & r & -> & Hn & _).
    destruct r as [body|e]; cbn [snd]; (split; [by apply open_sessions_closed_last|]);
      cbn; split_and!; done || lia.
  - rewrite (validate_input_incomplete net py_str input h Hnot). cbn.
    split_and!; done || lia.
Qed.

(** X19. How the user step answers a submitted input. It creates the
    entry, with the submitted input as its data and the title made of the
    two coordinates, exactly when the input holds the three keys and the
    test fetch returns. When the fetch raises, whatever the error (a
    rejected key, a rate limit, a time-out), the form comes back with
    [cannot_connect] and the validation error is logged. The form comes
    back with [unknown] only for an input that lacks a key, and then no
    session was created and no request made. *)
Theorem config_step_outcome net py_str input h :
  match ConfigFlow.async_step_user net py_str (Some input) h with
  | (ConfigFlow.CreateEntry entry_title entry_data, h') =>
      complete input ∧ entry_data = input
      ∧ ConfigFlow.title_of py_str input = Ok entry_title
      ∧ ∃ body, async_get_forecast net "hourly" (outside h) = (Ok body, outside h')
  | (ConfigFlow.ShowForm step_id errors, h') =>
      step_id = "user"
      ∧ ((errors = [("base", "cannot_connect")] ∧ complete input
          ∧ ∃ e w1,
              async_get_forecast net "hourly" (outside h) = (Raise e, w1)
              ∧ outside h'
                = World (sent w1) (trace w1 ++ [Log ERROR "Error validating input: %s"]))
         ∨ (errors = [("base", "unknown")] ∧ ¬ complete input
            ∧ opened h' = opened h
            ∧ outside h'
              = World (sent (outside h))
                  (trace (outside h) ++ [Log ERROR "Unexpected exception"])))
  end.
Proof.
  unfold ConfigFlow.async_step_user.
  destruct (complete_dec input) as [Hcomplete|Hnot].
  - pose proof Hcomplete as ([api_key Hkey] & [latitude Hlat] & [longitude Hlon]).
    rewrite (validate_input_complete net py_str input h _ _ _ Hkey Hlat Hlon).
    destruct (async_get_forecast net "hourly" (outside h)) as [[body|e] w1].
    + split; [done|]. split; [done|]. split; [|by exists body].
      unfold ConfigFlow.title_of, CONF_LATITUDE, CONF_LONGITUDE.
      rewrite !getitem_lookup. unfold CONF_LATITUDE, CONF_LONGITUDE in *.
      by rewrite Hlat, Hlon.
    + split; [done|]. left. split; [done|]. split; [done|]. by exists e, w1.
  - rewrite (validate_input_incomplete net py_str input h Hnot). cbn.
    split; [done|]. right. by split_and!.
Qed.

(** ** The hourly forecast of any time series *)

Lemma getitem_errors x k e : getitem x k = Raise e → e = KeyError ∨ e = TypeError.
Proof.
  destruct x as [| | | | | |d]; cbn; try (intros [= <-]; by right).
  destruct (dict_lookup k d); [done|]. intros [= <-]. by left.
Qed.

Lemma condition_of_errors code e : condition_of code = Raise e → e = TypeError.
Proof.
  intros Hcode. pose proof (condition_is_canonical_aux code) as Hcanon.
  rewrite Hcode in Hcanon. by destruct Hcanon.
Qed.

Lemma hourly_entry_errors entry e :
  hourly_entry entry = Raise e → e = KeyError ∨ e = TypeError.
Proof.
  unfold hourly_entry. intros Hentry.
  repeat match type of Hentry with
         | (?m ≫= _) = Raise _ =>
             let E := fresh "E" in
             destruct m eqn:E; cbn [mbind result_bind] in Hentry;
             [|injection Hentry as <-]
         end; try discriminate.
  all: try (by eapply getitem_errors).
  destruct (getitem entry "significantWeatherCode") eqn:Hcode; cbn [mbind result_bind] in *.
  - right. by eapply condition_of_errors.
  - injection E1 as <-. by eapply getitem_errors.
Qed.

Lemma hourly_entry_missing d k :
  k ∈ HOURLY_KEYS → dict_lookup k d = None → ∃ e, hourly_entry (JObj d) = Raise e.
Proof.
  intros Hk Hnone. destruct (hourly_entry (JObj d)) as [f|e] eqn:Hentry; [|by exists e].
  exfalso. revert Hentry. unfold hourly_entry. rewrite !getitem_lookup.
  unfold HOURLY_KEYS in Hk. rewrite !elem_of_cons, elem_of_nil in Hk.
  destruct Hk as [->|[->|[->|[->|[->|[->|[->|[]]]]]]]]; rewrite Hnone; cbn [mbind result_bind];
    intros Hentry;
    repeat match type of Hentry with
           | (?m ≫= _) = Ok _ =>
               destruct m; cbn [mbind result_bind] in Hentry; [|discriminate]
           end; discriminate.
Qed.

Lemma mapM_raises {B} (f : json → result B) (P : exn → Prop) l x :
  x ∈ l → (∃ e, f x = Raise e) → (∀ y e, f y = Raise e → P e) →
  ∃ e, mapM f l = Raise e ∧ P e.
Proof.
  intros Hx [e0 Hfx] HP. induction l as [|y l IH]; [by apply elem_of_nil in Hx|].
  change (mapM f (y :: l)) with (z ← f y; zs ← mapM f l; Ok (z :: zs)).
  destruct (f y) as [z|e] eqn:Hfy; cbn [mbind result_bind].
  - apply elem_of_cons in Hx as [->|Hx]; [congruence|].
    destruct (IH Hx) as (e & -> & He). by exists e.
  - exists e. split; [done|]. by eapply HP.
Qed.

(** X20. The hourly forecast is all or nothing: when any entry of the
    stored time series lacks one of the seven keys the forecast reads, the
    request raises, [KeyError] or [TypeError], and returns no record at
    all, however many entries are complete. *)
Theorem hourly_forecast_all_or_nothing self time_series d k :
  _data self = JObj (response_with time_series) →
  JObj d ∈ time_series → k ∈ HOURLY_KEYS → dict_lookup k d = None →
  ∃ e, async_forecast_hourly self = Raise e ∧ (e = KeyError ∨ e = TypeError).
Proof.
  intros Hdata Hin Hk Hnone. rewrite (async_forecast_hourly_series _ _ Hdata).
  destruct (mapM_raises hourly_entry (λ e, e = KeyError ∨ e = TypeError)
              time_series (JObj d) Hin (hourly_entry_missing d k Hk Hnone)
              hourly_entry_errors) as (e & -> & He).
  by exists e.
Qed.

Lemma hourly_forecast_all_or_nothing_witness :
  JObj unparsed_entry ∈ [entry_json example_first; JObj unparsed_entry]
  ∧ "screenTemperature" ∈ HOURLY_KEYS
  ∧ dict_lookup "screenTemperature" unparsed_entry = None
  ∧ ∃ e,
      async_forecast_hourly
        (stored (JObj (response_with [entry_json example_first; JObj unparsed_entry])) init)
      = Raise e
      ∧ (e = KeyError ∨ e = TypeError).
Proof.
  assert (Hin : JObj unparsed_entry ∈ [entry_json example_first; JObj unparsed_entry])
    by (apply elem_of_cons; right; apply elem_of_cons; by left).
  assert (Hk : "screenTemperature" ∈ HOURLY_KEYS)
    by (apply elem_of_cons; right; apply elem_of_cons; by left).
  split; [exact Hin|]. split; [exact Hk|]. split; [reflexivity|].
  exact (hourly_forecast_all_or_nothing
           (stored (JObj (response_with [entry_json example_first; JObj unparsed_entry])) init)
           _ unparsed_entry "screenTemperature" eq_refl Hin Hk eq_refl).
Defined.

(** ** Start-up *)

(** X21. An entity added to Home Assistant while the provider cannot be
    reached, whatever the error: the start-up refresh returns, one error is
    logged by the entity after those of the client, and the entity is
    unavailable, has no current conditions, and answers [None] to both
    forecast requests. *)
Theorem startup_with_provider_down {datetime date : Type} `{EqDecision date}
    (parse_datetime : string → result (option datetime)) (date_of : datetime → date)
    (set_iter : list json → list json) (adder : summation) net w e w1 :
  async_get_forecast net "hourly" w = (Raise e, w1) →
  ∃ self' w',
    async_added_to_hass net (init, w) = (Ok (), (self', w'))
    ∧ errors_in (trace w') = errors_in (trace w1) ++ [MSG_FETCH]
    ∧ _attr_available self' = false
    ∧ no_current_conditions self'
    ∧ async_forecast_hourly self' = Ok None
    ∧ async_forecast_daily parse_datetime date_of set_iter adder self' = Ok None.
Proof.
  intros Hfetch. unfold async_added_to_hass.
  rewrite (async_update_fetch_raises _ _ _ _ _ Hfetch).
  eexists _, _. split; [reflexivity|]. cbn [trace]. rewrite errors_in_app.
  split; [done|]. split; [done|]. split; [by repeat split|]. by split.
Qed.

Lemma startup_with_provider_down_witness :
  ∃ self' w',
    async_added_to_hass (net_failing (ClientResponseError 401)) (init, world0)
    = (Ok (), (self', w'))
    ∧ errors_in (trace w') = ["Invalid API key for Met Office (DataHub)"; MSG_FETCH]
    ∧ _attr_available self' = false
    ∧ async_forecast_hourly self' = Ok None
    ∧ async_forecast_daily iso_parse iso_date small_int_set exact_adder self' = Ok None.
Proof.
  destruct (startup_with_provider_down iso_parse iso_date small_int_set exact_adder
              (net_failing (ClientResponseError 401)) world0 (ClientResponseError 401)
              (World 1 [Log DEBUG MSG_REQUEST; Request HOURLY_URL;
                        Log ERROR "Invalid API key for Met Office (DataHub)"]) eq_refl)
    as (self' & w' & Hrun & Herrors & Havailable & _ & Hhourly & Hdaily).
  exists self', w'. by split_and!.
Defined.
